(** * Real-time broadcast layer of the analytics API

    A shallow embedding of [app/routes/websocket.py]: the
    [ConnectionManager] (connection registry, topic subscriptions,
    broadcast with eviction of unreachable clients), the per-client
    metrics loop [send_metrics_updates] and the milestone monitor
    [monitor_business_metrics].

    Python dictionaries are finite maps ([gmap]), Python sets are finite
    sets ([gset]); coroutines that perform I/O are computations in a
    state-and-exception monad over a [World] made of the manager and the
    log of frames that reached a client. *)

From stdpp Require Import gmap strings list fin_maps.
From Stdlib Require Import QArith Qround SpecFloat.

Local Open Scope string_scope.
Local Open Scope list_scope.

(** ** Data model *)

(** A [WebSocket] object is an opaque transport handle. *)
Inductive WebSocket : Type := Socket (fd : nat).

#[global] Instance WebSocket_eq_dec : EqDecision WebSocket.
Proof. solve_decision. Defined.

(** The dictionary returned by [get_live_metrics] when the query succeeds. *)
Record LiveMetrics : Type := {
  ordersToday : Z;
  revenueToday : Q;
  customersToday : Z;
  ordersLastHour : Z;
  lastHourRevenue : Q;
  totalRevenue : Q;
  activeCustomers : Z
}.

(** The ["data"] field of an outbound message. *)
Inductive Payload : Type :=
| NoData
| EmptyDict
| ConnectionData (client_id : string) (status : string)
| MetricsData (metrics : LiveMetrics)
| OrderData (orderId orderAmount : Z)
| MilestoneAlert (milestoneAmount : Z)
| ChurnAlert (count : Z)
| TestAlert.

(** Outbound envelope [{"type": ..., "data": ..., "timestamp": ...}]. *)
Record Message : Type := {
  msg_type : string;
  msg_data : Payload;
  msg_timestamp : Z
}.

#[global] Instance Q_eq_dec : EqDecision Q.
Proof. solve_decision. Defined.
#[global] Instance LiveMetrics_eq_dec : EqDecision LiveMetrics.
Proof. solve_decision. Defined.
#[global] Instance Payload_eq_dec : EqDecision Payload.
Proof. solve_decision. Defined.
#[global] Instance Message_eq_dec : EqDecision Message.
Proof. solve_decision. Defined.

(** One entry of [connection_metadata]. *)
Record Metadata : Type := {
  connected_at : Z;
  last_ping : Z
}.

(** The three dictionaries of [ConnectionManager.__init__]. *)
Record ConnectionManager : Type := {
  active_connections : gmap string WebSocket;
  subscriptions : gmap string (gset string);
  connection_metadata : gmap string Metadata
}.

(** [ConnectionManager()] : all three dictionaries start empty. *)
Definition new_manager : ConnectionManager :=
  {| active_connections := ∅; subscriptions := ∅; connection_metadata := ∅ |}.

(** A frame that reached a client: the id it was sent for, the socket it
    went out on and the message. *)
Record Delivery : Type := {
  to : string;
  socket : WebSocket;
  frame : Message
}.

#[global] Instance Delivery_eq_dec : EqDecision Delivery.
Proof. solve_decision. Defined.

(** The global [manager] together with everything sent so far. *)
Record World : Type := {
  manager : ConnectionManager;
  outbox : list Delivery
}.

Definition new_world : World := {| manager := new_manager; outbox := [] |}.

(** ** Exceptions and coroutines *)

Inductive Exception : Type :=
| AcceptFailed
| SendFailed
| DatabaseError
| WebSocketDisconnect
| TypeError
| AttributeError.

Inductive Outcome (A : Type) : Type :=
| Returned (a : A)
| Raised (e : Exception).
Arguments Returned {A} a.
Arguments Raised {A} e.

Definition Task (A : Type) : Type := World → Outcome A * World.

#[global] Instance Task_ret : MRet Task :=
  λ A a w, (Returned a, w).

#[global] Instance Task_bind : MBind Task :=
  λ A B k t w,
    match t w with
    | (Returned a, w') => k a w'
    | (Raised e, w') => (Raised e, w')
    end.

Definition raise {A : Type} (e : Exception) : Task A :=
  λ w, (Raised e, w).

(** [try: body except Exception as e: handler e] *)
Definition try_except {A : Type} (body : Task A) (handler : Exception → Task A)
  : Task A :=
  λ w,
    match body w with
    | (Returned a, w') => (Returned a, w')
    | (Raised e, w') => handler e w'
    end.

(** Read the global manager. *)
Definition get_manager : Task ConnectionManager :=
  λ w, (Returned (manager w), w).

(** Run a synchronous method of the manager. *)
Definition call (method : ConnectionManager → ConnectionManager) : Task unit :=
  λ w, (Returned (), {| manager := method (manager w); outbox := outbox w |}).

(** The network as seen by the server: whether the handshake of a socket
    succeeds and whether a frame written to a socket goes through. *)
Record Transport : Type := {
  accept_ok : WebSocket → bool;
  send_ok : WebSocket → Message → bool
}.

(** ** ConnectionManager *)

Section manager.
Context (net : Transport).

(** [await websocket.accept()] *)
Definition accept (websocket : WebSocket) : Task unit :=
  if accept_ok net websocket then mret () else raise AcceptFailed.

(** [await websocket.send_json(message)], issued for [client_id]. *)
Definition send_json (client_id : string) (websocket : WebSocket)
    (message : Message) : Task unit :=
  λ w,
    if send_ok net websocket message
    then (Returned (),
          {| manager := manager w;
             outbox := outbox w ++
               [{| to := client_id; socket := websocket; frame := message |}] |})
    else (Raised SendFailed, w).

(** [ConnectionManager.connect]; [now1] and [now2] are the two readings
    of [datetime.utcnow()]. *)
Definition connect (websocket : WebSocket) (client_id : string)
    (now1 now2 : Z) : Task unit :=
  accept websocket ;;
  call (λ self,
    {| active_connections := <[client_id := websocket]> (active_connections self);
       subscriptions := subscriptions self;
       connection_metadata :=
         <[client_id := {| connected_at := now1; last_ping := now2 |}]>
           (connection_metadata self) |}).

(** [ConnectionManager.disconnect] *)
Definition disconnect (client_id : string) (self : ConnectionManager)
  : ConnectionManager :=
  match active_connections self !! client_id with
  | Some _ =>
      {| active_connections := delete client_id (active_connections self);
         subscriptions := (λ bucket, bucket ∖ {[client_id]}) <$> subscriptions self;
         connection_metadata := delete client_id (connection_metadata self) |}
  | None => self
  end.

(** [ConnectionManager.send_personal_message] *)
Definition send_personal_message (message : Message) (client_id : string)
  : Task unit :=
  self ← get_manager;
  match active_connections self !! client_id with
  | Some websocket =>
      try_except (send_json client_id websocket message)
                 (λ _, call (disconnect client_id))
  | None => mret ()
  end.

(** The recipients chosen at the head of [broadcast]: Python's
    [message_type and message_type in self.subscriptions] is false for
    [None], for the empty string and for a key without a bucket. *)
Definition recipients_of (self : ConnectionManager)
    (message_type : option string) : gset string :=
  match message_type with
  | Some t =>
      if String.eqb t "" then dom (active_connections self)
      else match subscriptions self !! t with
           | Some bucket => bucket
           | None => dom (active_connections self)
           end
  | None => dom (active_connections self)
  end.

(** The first loop of [broadcast]: try every recipient, collecting the
    ids whose send raised. *)
Fixpoint send_each (message : Message) (recipients : list string)
    (disconnected_clients : list string) : Task (list string) :=
  match recipients with
  | [] => mret disconnected_clients
  | client_id :: rest =>
      self ← get_manager;
      match active_connections self !! client_id with
      | Some websocket =>
          failed ← try_except
                     (send_json client_id websocket message ;; mret [])
                     (λ _, mret [client_id]);
          send_each message rest (disconnected_clients ++ failed)
      | None => send_each message rest disconnected_clients
      end
  end.

(** The second loop of [broadcast]. *)
Fixpoint disconnect_each (disconnected_clients : list string) : Task unit :=
  match disconnected_clients with
  | [] => mret ()
  | client_id :: rest => call (disconnect client_id) ;; disconnect_each rest
  end.

(** [ConnectionManager.broadcast] *)
Definition broadcast (message : Message) (message_type : option string)
  : Task unit :=
  self ← get_manager;
  disconnected_clients ←
    send_each message (elements (recipients_of self message_type)) [];
  disconnect_each disconnected_clients.

(** [ConnectionManager.subscribe]: indexing the [defaultdict] creates a
    missing bucket. *)
Definition subscribe (client_id : string) (message_types : list string)
    (self : ConnectionManager) : ConnectionManager :=
  {| active_connections := active_connections self;
     subscriptions :=
       foldl (λ subs message_type,
                <[message_type :=
                    default ∅ (subs !! message_type) ∪ {[client_id]}]> subs)
             (subscriptions self) message_types;
     connection_metadata := connection_metadata self |}.

(** [ConnectionManager.unsubscribe]: here too the [defaultdict] creates
    a missing bucket before [discard] runs on it. *)
Definition unsubscribe (client_id : string) (message_types : list string)
    (self : ConnectionManager) : ConnectionManager :=
  {| active_connections := active_connections self;
     subscriptions :=
       foldl (λ subs message_type,
                <[message_type :=
                    default ∅ (subs !! message_type) ∖ {[client_id]}]> subs)
             (subscriptions self) message_types;
     connection_metadata := connection_metadata self |}.

End manager.

(** ** Database results *)

(** What [db.execute_one] does for one query: it raises, it returns
    [None] (no row), or it returns a row. *)
Inductive QueryResult (R : Type) : Type :=
| QueryRaises
| NoRow
| Row (r : R).
Arguments QueryRaises {R}.
Arguments NoRow {R}.
Arguments Row {R} r.

(** The row of the live-metrics query; both sums are wrapped in
    [COALESCE], so no column is NULL. *)
Record LiveRow : Type := {
  orders_today : Z;
  revenue_today : Q;
  customers_today : Z;
  orders_last_hour : Z;
  last_hour_revenue : Q
}.

(** [await run_in_executor(None, db.execute_one, query)] *)
Definition execute_one {R : Type} (result : QueryResult R) : Task (option R) :=
  match result with
  | QueryRaises => raise DatabaseError
  | NoRow => mret None
  | Row r => mret (Some r)
  end.

(** [result[column]]: subscripting [None] raises. *)
Definition subscript {R : Type} (result : option R) : Task R :=
  match result with
  | Some r => mret r
  | None => raise DatabaseError
  end.

(** [await asyncio.sleep(seconds)] *)
Definition sleep (seconds : Z) : Task unit := mret ().

(** [get_live_metrics]: every failure is swallowed and turned into [{}]. *)
Definition get_live_metrics (query : QueryResult LiveRow) : Task Payload :=
  try_except
    (result ← execute_one query;
     row ← subscript result;
     mret (MetricsData
             {| ordersToday := orders_today row;
                revenueToday := revenue_today row;
                customersToday := customers_today row;
                ordersLastHour := orders_last_hour row;
                lastHourRevenue := last_hour_revenue row;
                totalRevenue := revenue_today row;
                activeCustomers := customers_today row |}))
    (λ _, mret EmptyDict).

(** ** Per-client metrics loop *)

(** What one iteration of a background loop meets: the outcome of its
    database query and the clock reading used for the timestamp. *)
Record PumpTick : Type := {
  live_query : QueryResult LiveRow;
  pump_time : Z
}.

(** Where a loop stands after the observed iterations: still at its head
    ([Running]) or left through its condition or a [break] ([Stopped]). *)
Inductive LoopState : Type := Running | Stopped.

Section loops.
Context (net : Transport).

(** [send_metrics_updates], observed for as many iterations as there
    are [ticks]. *)
Fixpoint send_metrics_updates (ticks : list PumpTick) (client_id : string)
  : Task LoopState :=
  match ticks with
  | [] => mret Running
  | tick :: later =>
      self ← get_manager;
      match active_connections self !! client_id with
      | None => mret Stopped
      | Some _ =>
          again ← try_except
            (metrics ← get_live_metrics (live_query tick);
             send_personal_message net
               {| msg_type := "metrics"; msg_data := metrics;
                  msg_timestamp := pump_time tick |} client_id ;;
             sleep 5 ;;
             mret true)
            (λ _, mret false);
          if again : bool then send_metrics_updates later client_id
          else mret Stopped
      end
  end.

(** ** Milestone monitor *)

Definition milestones : list Z := [25000; 50000; 100000; 250000; 500000]%Z.

(** *** Binary64 numbers

    A Python [float] is kept as the rational it denotes.  Converting to
    [float] and every float operation round the exact value to the
    nearest number with 53 significant bits, a tie going to the even
    significand.  Infinities and subnormal numbers are not represented;
    they lie far outside every milestone band, where the comparisons of
    the monitor come out the same. *)

(** [2 ** e] for any integer [e]. *)
Definition two_to (e : Z) : Q :=
  if (0 <=? e)%Z then inject_Z (2 ^ e) else 1 # Z.to_pos (2 ^ (- e)).

(** For [q > 0], the [e] with [2 ** e <= q < 2 ** (e + 1)]. *)
Definition binade (q : Q) : Z :=
  let e := (Z.log2 (Qnum q) - Z.log2 (Zpos (Qden q)))%Z in
  if Qle_bool (two_to e) q then e else (e - 1)%Z.

(** The nearest integer, a tie going to the even one. *)
Definition round_half_even (q : Q) : Z :=
  let f := Qfloor q in
  match Qcompare (q - inject_Z f) (1 # 2) with
  | Lt => f
  | Gt => (f + 1)%Z
  | Eq => if Z.even f then f else (f + 1)%Z
  end.

(** Rounding of [q > 0] to 53 significant bits. *)
Definition round53 (q : Q) : Q :=
  let e := binade q in
  Qred (inject_Z (round_half_even (q * two_to (52 - e))) * two_to (e - 52)).

(** [float(q)]: the binary64 number nearest to [q]. *)
Definition float64 (q : Q) : Q :=
  match Qcompare q 0 with
  | Eq => 0
  | Gt => round53 q
  | Lt => Qred (- round53 (- q))
  end.

(** [milestone * 1.1]: the integer is converted to [float] and multiplied
    by the [float] written [1.1], the product being rounded. *)
Definition times_1_1 (milestone : Z) : Q :=
  float64 (float64 (inject_Z milestone) * float64 (11 # 10)).

(** [daily_revenue >= milestone and daily_revenue < milestone * 1.1],
    for the [float] [daily_revenue]; comparing a [float] with an [int]
    compares the numbers exactly. *)
Definition in_band (daily_revenue : Q) (milestone : Z) : bool :=
  Qle_bool (inject_Z milestone) daily_revenue
  && negb (Qle_bool (times_1_1 milestone) daily_revenue).

(** [broadcast_revenue_milestone] *)
Definition broadcast_revenue_milestone (amount : Z) (now : Z) : Task unit :=
  broadcast net
    {| msg_type := "alert"; msg_data := MilestoneAlert amount;
       msg_timestamp := now |}
    (Some "alert").

(** The [for milestone in milestones] loop with its [break]; the value
    returned is the milestone that was broadcast, if any. *)
Fixpoint check_milestones (daily_revenue : Q) (now : Z) (todo : list Z)
  : Task (option Z) :=
  match todo with
  | [] => mret None
  | milestone :: rest =>
      if in_band daily_revenue milestone
      then broadcast_revenue_milestone milestone now ;; mret (Some milestone)
      else check_milestones daily_revenue now rest
  end.

Record MonitorTick : Type := {
  revenue_query : QueryResult (option Q);
  monitor_time : Z
}.

(** One turn of the [while True] loop of [monitor_business_metrics];
    the column is the [Decimal] sum (or NULL), which
    [float(result['daily_revenue'] or 0)] converts. *)
Definition monitor_iteration (tick : MonitorTick) : Task (option Z) :=
  try_except
    (result ← execute_one (revenue_query tick);
     column ← subscript result;
     let daily_revenue := float64 (default 0%Q column) in
     fired ← check_milestones daily_revenue (monitor_time tick) milestones;
     sleep 60 ;;
     mret fired)
    (λ _, sleep 60 ;; mret None).

(** [monitor_business_metrics] observed over [ticks]: for every
    iteration, the milestone it broadcast. *)
Fixpoint monitor_business_metrics (ticks : list MonitorTick)
  : Task (list (option Z)) :=
  match ticks with
  | [] => mret []
  | tick :: later =>
      fired ← monitor_iteration tick;
      others ← monitor_business_metrics later;
      mret (fired :: others)
  end.

End loops.

(** ** Sequences of registry operations *)

Inductive Op : Type :=
| Register (websocket : WebSocket) (client_id : string) (now1 now2 : Z)
| Unregister (client_id : string)
| Subscribe (client_id : string) (message_types : list string)
| Unsubscribe (client_id : string) (message_types : list string).

Definition apply_op (net : Transport) (op : Op) : Task unit :=
  match op with
  | Register websocket client_id now1 now2 =>
      connect net websocket client_id now1 now2
  | Unregister client_id => call (disconnect client_id)
  | Subscribe client_id message_types => call (subscribe client_id message_types)
  | Unsubscribe client_id message_types =>
      call (unsubscribe client_id message_types)
  end.

(** The world after one operation, whether it returned or raised. *)
Definition step (net : Transport) (w : World) (op : Op) : World :=
  (apply_op net op w).2.

Definition run_ops (net : Transport) (ops : list Op) (w : World) : World :=
  foldl (step net) w ops.

(** ** Vocabulary of the statements *)

(** The session is registered. *)
Definition registered (client_id : string) (self : ConnectionManager) : Prop :=
  client_id ∈ dom (active_connections self).

#[global] Instance registered_dec client_id self :
  Decision (registered client_id self).
Proof. unfold registered. apply _. Defined.

(** No bucket of the topic index holds an id without a connection. *)
Definition no_orphans (self : ConnectionManager) : Prop :=
  map_Forall (λ _ bucket, bucket ⊆ dom (active_connections self))
             (subscriptions self).

#[global] Instance no_orphans_dec self : Decision (no_orphans self).
Proof. unfold no_orphans. apply _. Defined.

(** Every [Subscribe] of the sequence names an id that is registered when
    it runs. *)
Fixpoint subscribers_registered (net : Transport) (ops : list Op) (w : World)
  : bool :=
  match ops with
  | [] => true
  | op :: rest =>
      match op with
      | Subscribe client_id _ =>
          bool_decide (registered client_id (manager w))
      | _ => true
      end && subscribers_registered net rest (step net w op)
  end.

(** The frames of a log that were sent for [client_id]. *)
Definition deliveries_to (client_id : string) (log : list Delivery)
  : list Delivery :=
  filter (λ d, to d = client_id) log.

(** The frames of a log whose message has the given type. *)
Definition of_type (type : string) (log : list Delivery) : list Delivery :=
  filter (λ d, msg_type (frame d) = type) log.

(** A network on which every handshake and every send succeeds. *)
Definition reliable : Transport :=
  {| accept_ok := λ _, true; send_ok := λ _ _, true |}.

(** A network on which exactly the sends on [bad] fail. *)
Definition broken_at (bad : WebSocket) : Transport :=
  {| accept_ok := λ _, true;
     send_ok := λ websocket _, bool_decide (websocket ≠ bad) |}.

(** ** The registry as the specification describes it *)

(** The specification gives every registered session its own set
    [subscribedTopics] and asks the topic index to mirror it.  The code
    has no such set; the definitions below follow the specification:
    [register] creates a session with no topics and refuses an id that
    exists ([DuplicateId]), [unregister] removes the session, [subscribe]
    and [unsubscribe] change the topics of a registered session and
    refuse an unknown one ([UnknownSession]).  A refused call leaves the
    sessions as they were. *)
Definition spec_step (net : Transport) (sessions : gmap string (gset string))
    (op : Op) : gmap string (gset string) :=
  match op with
  | Register websocket client_id _ _ =>
      if accept_ok net websocket
      then match sessions !! client_id with
           | Some _ => sessions
           | None => <[client_id := ∅]> sessions
           end
      else sessions
  | Unregister client_id => delete client_id sessions
  | Subscribe client_id message_types =>
      match sessions !! client_id with
      | Some topics =>
          <[client_id := topics ∪ list_to_set message_types]> sessions
      | None => sessions
      end
  | Unsubscribe client_id message_types =>
      match sessions !! client_id with
      | Some topics =>
          <[client_id := topics ∖ list_to_set message_types]> sessions
      | None => sessions
      end
  end.

Definition spec_run (net : Transport) (ops : list Op)
    (sessions : gmap string (gset string)) : gmap string (gset string) :=
  foldl (spec_step net) sessions ops.

(** The code's index and the specification's sessions agree: the same ids
    are registered, and an id is in the bucket of a topic exactly when
    the topic is among the session's topics. *)
Definition mirrors (self : ConnectionManager)
    (sessions : gmap string (gset string)) : Prop :=
  dom sessions = dom (active_connections self)
  ∧ ∀ client_id topic,
      client_id ∈ default ∅ (subscriptions self !! topic)
      ↔ topic ∈ default ∅ (sessions !! client_id).

(** ** Closed forms used by the proofs *)

(** The frame that [client_id] gets out of one broadcast of [message],
    if it is connected and its send goes through. *)
Definition reached (net : Transport) (self : ConnectionManager)
    (message : Message) (client_id : string) : option Delivery :=
  match active_connections self !! client_id with
  | Some websocket =>
      if send_ok net websocket message
      then Some {| to := client_id; socket := websocket; frame := message |}
      else None
  | None => None
  end.

(** The send to [client_id] is attempted and raises. *)
Definition send_fails (net : Transport) (self : ConnectionManager)
    (message : Message) (client_id : string) : bool :=
  match active_connections self !! client_id with
  | Some websocket => negb (send_ok net websocket message)
  | None => false
  end.

(** Frames produced by the first loop of [broadcast]. *)
Definition delivered (net : Transport) (self : ConnectionManager)
    (message : Message) (recipients : list string) : list Delivery :=
  omap (reached net self message) recipients.

(** Ids collected by the first loop of [broadcast]. *)
Definition failing (net : Transport) (self : ConnectionManager)
    (message : Message) (recipients : list string) : list string :=
  filter (λ client_id, send_fails net self message client_id = true) recipients.

(** Effect of the second loop of [broadcast] on the manager. *)
Definition evict (clients : list string) (self : ConnectionManager)
  : ConnectionManager :=
  foldl (λ m client_id, disconnect client_id m) self clients.

(** The payload [get_live_metrics] hands to the metrics loop. *)
Definition metrics_of (query : QueryResult LiveRow) : Payload :=
  match query with
  | Row row =>
      MetricsData
        {| ordersToday := orders_today row;
           revenueToday := revenue_today row;
           customersToday := customers_today row;
           ordersLastHour := orders_last_hour row;
           lastHourRevenue := last_hour_revenue row;
           totalRevenue := revenue_today row;
           activeCustomers := customers_today row |}
  | _ => EmptyDict
  end.

(** The frame the metrics loop sends for one tick. *)
Definition metrics_frame (client_id : string) (websocket : WebSocket)
    (tick : PumpTick) : Delivery :=
  {| to := client_id; socket := websocket;
     frame := {| msg_type := "metrics";
                 msg_data := metrics_of (live_query tick);
                 msg_timestamp := pump_time tick |} |}.

(** The milestone an iteration of the monitor announces, as a function of
    that iteration's query result alone. *)
Definition milestone_due (tick : MonitorTick) : option Z :=
  match revenue_query tick with
  | Row column => find (in_band (float64 (default 0%Q column))) milestones
  | _ => None
  end.

(** A monitor tick whose query returns the given whole-euro revenue. *)
Definition revenue_tick (daily_revenue : Z) : MonitorTick :=
  {| revenue_query := Row (Some (inject_Z daily_revenue)); monitor_time := 0 |}.

(** ** Concrete worlds for the examples *)

Definition test_alert : Message :=
  {| msg_type := "alert"; msg_data := TestAlert; msg_timestamp := 0 |}.

(** Clients ["a"] and ["b"] are connected; nobody has subscribed. *)
Definition lobby : World :=
  run_ops reliable
    [Register (Socket 1) "a" 0 0; Register (Socket 2) "b" 0 0] new_world.

(** Both clients have subscribed to ["alert"]. *)
Definition both_on_alert : World :=
  run_ops reliable [Subscribe "a" ["alert"]; Subscribe "b" ["alert"]] lobby.

(** A tick on which the live-metrics query returns a row. *)
Definition good_tick (now : Z) : PumpTick :=
  {| live_query := Row {| orders_today := 3; revenue_today := 120;
                          customers_today := 2; orders_last_hour := 1;
                          last_hour_revenue := 40 |};
     pump_time := now |}.

(** A tick on which the live-metrics query raises. *)
Definition failed_tick (now : Z) : PumpTick :=
  {| live_query := QueryRaises; pump_time := now |}.

(** A client connects, is unregistered, and its subscribe frame is
    handled afterwards. *)
Definition stale_subscribe : list Op :=
  [Register (Socket 1) "a" 0 0; Unregister "a"; Subscribe "a" ["alert"]].

(** A client connects, subscribes, unsubscribes and leaves. *)
Definition guarded_session : list Op :=
  [Register (Socket 1) "a" 0 0; Subscribe "a" ["alert"; "order_placed"];
   Unsubscribe "a" ["alert"]; Unregister "a"].

(** ** The WebSocket endpoint *)

(** The value under ["types"], as the [for] loops of [subscribe] and
    [unsubscribe] meet it.  [Strings topics]: iterating it yields these
    strings and ends (a list of strings, a string with these characters,
    an object with these keys).  [RaisesAfter topics]: iterating it yields
    these strings and then a [TypeError]: the value is not iterable (null,
    a number, a boolean, with no topic before), or it is a list whose
    next item is a list or an object, which cannot be a dictionary key.
    A list with an item that is a number, a boolean or null is not
    represented: such an item becomes a key of [subscriptions] that is
    not a string, and the index of this model has string keys only. *)
Inductive TypesValue : Type :=
| Strings (topics : list string)
| RaisesAfter (topics : list string).

(** A decoded JSON object, as far as the handler looks at it:
    [data.get("action")], which is [None] here when the key is missing or
    its value is not a string, and the value under ["types"], [None] when
    the key is missing. *)
Record ControlFrame : Type := {
  action : option string;
  types : option TypesValue
}.

(** What [receive_json] can return: a JSON object, or any other JSON
    value (a list, a string, a number, a boolean, null). *)
Inductive Decoded : Type :=
| JsonObject (data : ControlFrame)
| JsonOther.

(** What one [await websocket.receive_json()] does: it returns a decoded
    object, it returns a value that is not an object, or it raises
    ([WebSocketDisconnect] when the peer went away). *)
Inductive Inbound : Type :=
| Received (data : ControlFrame)
| ReceivedOther
| ReceiveRaises (e : Exception).

(** Where the handler stands after the observed frames: still waiting in
    its receive loop, or returned after one of its [except] clauses. *)
Inductive EndpointState : Type := Serving | Closed.

Section endpoint.
Context (net : Transport).

(** [await websocket.receive_json()] *)
Definition receive_json (event : Inbound) : Task Decoded :=
  match event with
  | Received data => mret (JsonObject data)
  | ReceivedOther => mret JsonOther
  | ReceiveRaises e => raise e
  end.

(** [manager.subscribe(client_id, message_types)] (or [unsubscribe]) on
    the value of [data.get("types", [])], which nothing checks: the loop
    of the method handles the strings it is given and raises where the
    iteration raises. *)
Definition call_with_types
    (method : list string → ConnectionManager → ConnectionManager)
    (message_types : TypesValue) : Task unit :=
  match message_types with
  | Strings topics => call (method topics)
  | RaisesAfter topics => call (method topics) ;; raise TypeError
  end.

(** The [if]/[elif] chain of the receive loop; [now] is the clock reading
    used for the pong.  [data.get] raises when [data] is not an object. *)
Definition handle_frame (client_id : string) (decoded : Decoded) (now : Z)
  : Task unit :=
  match decoded with
  | JsonOther => raise AttributeError
  | JsonObject data =>
      if decide (action data = Some "subscribe")
      then call_with_types (subscribe client_id)
             (default (Strings []) (types data))
      else if decide (action data = Some "unsubscribe")
      then call_with_types (unsubscribe client_id)
             (default (Strings []) (types data))
      else if decide (action data = Some "ping")
      then send_personal_message net
             {| msg_type := "pong"; msg_data := NoData; msg_timestamp := now |}
             client_id
      else mret ()
  end.

(** The [while True] loop of [websocket_endpoint], observed for as many
    receives as there are [inbound] events. *)
Fixpoint receive_loop (inbound : list (Inbound * Z)) (client_id : string)
  : Task EndpointState :=
  match inbound with
  | [] => mret Serving
  | (event, now) :: later =>
      data ← receive_json event;
      handle_frame client_id data now ;;
      receive_loop later client_id
  end.

(** [websocket_endpoint]; [client_id] is the id built from the clock,
    [now1], [now2], [now3] are the next clock readings.  The metrics task
    the handler creates and cancels is a task of its own
    ([send_metrics_updates]); its iterations are not part of this run. *)
Definition websocket_endpoint (websocket : WebSocket) (client_id : string)
    (now1 now2 now3 : Z) (inbound : list (Inbound * Z)) : Task EndpointState :=
  connect net websocket client_id now1 now2 ;;
  send_personal_message net
    {| msg_type := "connection";
       msg_data := ConnectionData client_id "connected";
       msg_timestamp := now3 |}
    client_id ;;
  try_except (receive_loop inbound client_id)
    (λ e, match e with
          | WebSocketDisconnect => call (disconnect client_id) ;; mret Closed
          | _ => call (disconnect client_id) ;; mret Closed
          end).

(** ** Administrative routes *)

(** The dictionary returned by [test_broadcast]. *)
Record BroadcastReply : Type := {
  reply_status : string;
  reply_message : string;
  connected_clients : nat
}.

(** [test_broadcast]: a broadcast without a message type, then the number
    of connections that are left. *)
Definition test_broadcast (now : Z) : Task BroadcastReply :=
  broadcast net
    {| msg_type := "alert"; msg_data := TestAlert; msg_timestamp := now |}
    None ;;
  self ← get_manager;
  mret {| reply_status := "success";
          reply_message := "Test broadcast sent";
          connected_clients := size (active_connections self) |}.

(** The dictionary returned by [get_connections]; the list of client ids
    is kept as a set, the dictionaries of the model do not record the
    order of insertion. *)
Record ConnectionsInfo : Type := {
  total_connections : nat;
  clients : gset string;
  subscription_counts : gmap string nat
}.

(** [get_connections] *)
Definition get_connections : Task ConnectionsInfo :=
  self ← get_manager;
  mret {| total_connections := size (active_connections self);
          clients := dom (active_connections self);
          subscription_counts := size <$> subscriptions self |}.

End endpoint.

(** ** Everything that can happen to the manager *)

(** A call on the registry, a personal message or a broadcast. *)
Inductive Action : Type :=
| Registry (op : Op)
| SendTo (message : Message) (client_id : string)
| Broadcast (message : Message) (message_type : option string).

(** The world after one action, whether it returned or raised. *)
Definition perform (net : Transport) (w : World) (a : Action) : World :=
  match a with
  | Registry op => step net w op
  | SendTo message client_id => (send_personal_message net message client_id w).2
  | Broadcast message message_type => (broadcast net message message_type w).2
  end.

Definition run_actions (net : Transport) (actions : list Action) (w : World)
  : World :=
  foldl (perform net) w actions.

(** An action that sends and registers nothing new. *)
Definition sends_only (a : Action) : bool :=
  match a with
  | Registry _ => false
  | _ => true
  end.

(** Every connection has its metadata and every metadata entry its
    connection. *)
Definition metadata_consistent (self : ConnectionManager) : Prop :=
  dom (connection_metadata self) = dom (active_connections self).

#[global] Instance metadata_consistent_dec self :
  Decision (metadata_consistent self).
Proof. unfold metadata_consistent. apply _. Defined.

(** [client_id] is in the bucket of [topic]. *)
Definition subscribed (client_id topic : string) (self : ConnectionManager)
  : Prop :=
  client_id ∈ default ∅ (subscriptions self !! topic).

#[global] Instance subscribed_dec client_id topic self :
  Decision (subscribed client_id topic self).
Proof. unfold subscribed. apply _. Defined.

(** The send to [client_id] is attempted and raises. *)
Definition send_raises (net : Transport) (self : ConnectionManager)
    (message : Message) (client_id : string) : Prop :=
  ∃ websocket,
    active_connections self !! client_id = Some websocket
    ∧ send_ok net websocket message = false.

(** The frame [client_id] gets when [message] goes out on [websocket]. *)
Definition frame_for (client_id : string) (websocket : WebSocket)
    (message : Message) : Delivery :=
  {| to := client_id; socket := websocket; frame := message |}.

(** The alert broadcast for a milestone. *)
Definition milestone_message (amount now : Z) : Message :=
  {| msg_type := "alert"; msg_data := MilestoneAlert amount;
     msg_timestamp := now |}.

(** The greeting sent right after the handshake. *)
Definition greeting (client_id : string) (now : Z) : Message :=
  {| msg_type := "connection";
     msg_data := ConnectionData client_id "connected";
     msg_timestamp := now |}.

(** The reply to a ping. *)
Definition pong (now : Z) : Message :=
  {| msg_type := "pong"; msg_data := NoData; msg_timestamp := now |}.

(** A control frame with the given action and topics. *)
Definition control (name : string) (topics : list string) : ControlFrame :=
  {| action := Some name; types := Some (Strings topics) |}.

(** Every [Subscribe] among the actions names an id that is registered
    when it runs. *)
Fixpoint subscribes_guarded (net : Transport) (actions : list Action)
    (w : World) : bool :=
  match actions with
  | [] => true
  | a :: rest =>
      match a with
      | Registry (Subscribe client_id _) =>
          bool_decide (registered client_id (manager w))
      | _ => true
      end && subscribes_guarded net rest (perform net w a)
  end.

(** The message the metrics loop builds on one tick. *)
Definition metrics_message (tick : PumpTick) : Message :=
  {| msg_type := "metrics"; msg_data := metrics_of (live_query tick);
     msg_timestamp := pump_time tick |}.

(** The broadcast the monitor makes on one tick, if any. *)
Definition monitor_action (tick : MonitorTick) : option Action :=
  (λ amount,
     Broadcast (milestone_message amount (monitor_time tick)) (Some "alert"))
  <$> milestone_due tick.

(** [later] has every topic and every sent frame of [earlier]. *)
Definition extends (earlier later : World) : Prop :=
  dom (subscriptions (manager earlier)) ⊆ dom (subscriptions (manager later))
  ∧ outbox earlier `prefix_of` outbox later.

(** [after] has no connection and no subscription that [before] does not
    have, the connections it has kept their sockets, and the topics are
    the same. *)
Definition shrinks (before after : ConnectionManager) : Prop :=
  (∀ c, registered c after →
        registered c before
        ∧ active_connections after !! c = active_connections before !! c)
  ∧ (∀ c t, subscribed c t after → subscribed c t before)
  ∧ dom (subscriptions after) = dom (subscriptions before).

(** The strings a method gets to handle out of the ["types"] field. *)
Definition topics_read (field : option TypesValue) : list string :=
  match field with
  | Some (Strings topics) | Some (RaisesAfter topics) => topics
  | None => []
  end.

(** The action a control frame stands for, if any. *)
Definition frame_action (client_id : string) (data : ControlFrame) (now : Z)
  : option Action :=
  if decide (action data = Some "subscribe")
  then Some (Registry (Subscribe client_id (topics_read (types data))))
  else if decide (action data = Some "unsubscribe")
  then Some (Registry (Unsubscribe client_id (topics_read (types data))))
  else if decide (action data = Some "ping")
  then Some (SendTo (pong now) client_id)
  else None.

(** The exception the handling of a control frame ends with, if any: a
    subscribe or unsubscribe frame whose ["types"] cannot be iterated to
    the end. *)
Definition frame_raises (data : ControlFrame) : option Exception :=
  if decide (action data = Some "subscribe"
             ∨ action data = Some "unsubscribe")
  then match types data with
       | Some (RaisesAfter _) => Some TypeError
       | _ => None
       end
  else None.

(** The actions of the frames handled up to the first receive or frame
    that raises. *)
Fixpoint loop_actions (client_id : string) (inbound : list (Inbound * Z))
  : list Action :=
  match inbound with
  | (Received data, now) :: later =>
      option_list (frame_action client_id data now)
      ++ match frame_raises data with
         | Some _ => []
         | None => loop_actions client_id later
         end
  | _ => []
  end.

(** The exception that ends the receive loop, if any: that of the first
    receive that raises or of the first frame whose handling raises. *)
Fixpoint first_raise (inbound : list (Inbound * Z)) : option Exception :=
  match inbound with
  | [] => None
  | (Received data, _) :: later =>
      match frame_raises data with
      | Some e => Some e
      | None => first_raise later
      end
  | (ReceivedOther, _) :: _ => Some AttributeError
  | (ReceiveRaises e, _) :: _ => Some e
  end.

(** The event ends the receive loop. *)
Definition ends_loop (event : Inbound) : Prop :=
  match event with
  | Received data => is_Some (frame_raises data)
  | ReceivedOther | ReceiveRaises _ => True
  end.

#[global] Instance ends_loop_dec event : Decision (ends_loop event).
Proof. destruct event; apply _. Defined.

(** Everything a run of the endpoint does after a successful handshake. *)
Definition endpoint_actions (websocket : WebSocket) (client_id : string)
    (now1 now2 now3 : Z) (inbound : list (Inbound * Z)) : list Action :=
  [Registry (Register websocket client_id now1 now2);
   SendTo (greeting client_id now3) client_id]
  ++ loop_actions client_id inbound
  ++ match first_raise inbound with
     | Some _ => [Registry (Unregister client_id)]
     | None => []
     end.

(** The action names no client but [client_id]. *)
Definition concerns (client_id : string) (a : Action) : bool :=
  match a with
  | Registry (Register _ c _ _) | Registry (Unregister c)
  | Registry (Subscribe c _) | Registry (Unsubscribe c _)
  | SendTo _ c => bool_decide (c = client_id)
  | Broadcast _ _ => false
  end.

(** Client [c] finds in [w'] what it had in [w]: its frames, its socket,
    its metadata and its subscriptions. *)
Definition same_for (c : string) (w w' : World) : Prop :=
  deliveries_to c (outbox w') = deliveries_to c (outbox w)
  ∧ active_connections (manager w') !! c = active_connections (manager w) !! c
  ∧ connection_metadata (manager w') !! c
    = connection_metadata (manager w) !! c
  ∧ ∀ t, subscribed c t (manager w') ↔ subscribed c t (manager w).

(** The rational denoted by a finite floating-point number of the
    Standard Library. *)
Definition SF2Q (x : spec_float) : Q :=
  match x with
  | S754_finite s m e =>
      Qred ((if s then -1 else 1) * inject_Z (Zpos m) * two_to e)
  | _ => 0
  end.

(** The binary64 number written [1.1]. *)
Definition literal_1_1 : spec_float :=
  S754_finite false 4953959590107546 (-52).

(** * Properties *)

(** ** The monad *)

Lemma bind_returned {A B} (t : Task A) (k : A → Task B) w a w' :
  t w = (Returned a, w') → (t ≫= k) w = k a w'.
Proof. intros H. unfold mbind, Task_bind. by rewrite H. Qed.

Lemma world_eta w : {| manager := manager w; outbox := outbox w |} = w.
Proof. by destruct w. Qed.

(** ** The two loops of [broadcast] *)

Lemma loops_skip net self message c rest :
  active_connections self !! c = None →
  failing net self message (c :: rest) = failing net self message rest
  ∧ delivered net self message (c :: rest) = delivered net self message rest.
Proof.
  intros Hc.
  assert (send_fails net self message c = false) as Hf
    by (unfold send_fails; by rewrite Hc).
  assert (reached net self message c = None) as Hr
    by (unfold reached; by rewrite Hc).
  unfold failing, delivered. cbn [omap list_omap]. rewrite Hr.
  by rewrite filter_cons, decide_False by (by rewrite Hf).
Qed.

Lemma loops_sent net self message c ws rest :
  active_connections self !! c = Some ws →
  send_ok net ws message = true →
  failing net self message (c :: rest) = failing net self message rest
  ∧ delivered net self message (c :: rest) =
      {| to := c; socket := ws; frame := message |}
        :: delivered net self message rest.
Proof.
  intros Hc Hs.
  assert (send_fails net self message c = false) as Hf
    by (unfold send_fails; by rewrite Hc, Hs).
  assert (reached net self message c =
            Some {| to := c; socket := ws; frame := message |}) as Hr
    by (unfold reached; by rewrite Hc, Hs).
  unfold failing, delivered. cbn [omap list_omap]. rewrite Hr.
  by rewrite filter_cons, decide_False by (by rewrite Hf).
Qed.

Lemma loops_failed net self message c ws rest :
  active_connections self !! c = Some ws →
  send_ok net ws message = false →
  failing net self message (c :: rest) = c :: failing net self message rest
  ∧ delivered net self message (c :: rest) = delivered net self message rest.
Proof.
  intros Hc Hs.
  assert (send_fails net self message c = true) as Hf
    by (unfold send_fails; by rewrite Hc, Hs).
  assert (reached net self message c = None) as Hr
    by (unfold reached; by rewrite Hc, Hs).
  unfold failing, delivered. cbn [omap list_omap]. rewrite Hr.
  by rewrite filter_cons, decide_True by done.
Qed.

Lemma send_each_spec net message recipients acc w :
  send_each net message recipients acc w =
    (Returned (acc ++ failing net (manager w) message recipients),
     {| manager := manager w;
        outbox := outbox w ++ delivered net (manager w) message recipients |}).
Proof.
  revert acc w. induction recipients as [|c rest IH]; intros acc w.
  - cbn. by rewrite !app_nil_r, world_eta.
  - destruct (active_connections (manager w) !! c) as [ws|] eqn:Hc.
    + destruct (send_ok net ws message) eqn:Hs.
      * destruct (loops_sent net _ _ _ _ rest Hc Hs) as [-> ->].
        cbn [send_each]. unfold mbind, Task_bind, get_manager. rewrite Hc.
        unfold try_except, send_json. rewrite Hs. cbn.
        rewrite IH. cbn. by rewrite app_nil_r, <- app_assoc.
      * destruct (loops_failed net _ _ _ _ rest Hc Hs) as [-> ->].
        cbn [send_each]. unfold mbind, Task_bind, get_manager. rewrite Hc.
        unfold try_except, send_json. rewrite Hs. cbn.
        rewrite IH. cbn. by rewrite <- app_assoc.
    + destruct (loops_skip net _ message _ rest Hc) as [-> ->].
      cbn [send_each]. unfold mbind, Task_bind, get_manager. rewrite Hc.
      by rewrite IH.
Qed.

Lemma disconnect_each_spec clients w :
  disconnect_each clients w =
    (Returned (), {| manager := evict clients (manager w); outbox := outbox w |}).
Proof.
  revert w. induction clients as [|c rest IH]; intros w.
  - cbn. by rewrite world_eta.
  - cbn [disconnect_each]. unfold mbind, Task_bind, call. rewrite IH. done.
Qed.

Lemma broadcast_spec net message message_type w :
  broadcast net message message_type w =
    let recipients := elements (recipients_of (manager w) message_type) in
    (Returned (),
     {| manager := evict (failing net (manager w) message recipients) (manager w);
        outbox := outbox w ++ delivered net (manager w) message recipients |}).
Proof.
  unfold broadcast, mbind, Task_bind, get_manager.
  rewrite send_each_spec. rewrite disconnect_each_spec. done.
Qed.

(** ** What one broadcast delivers to one client *)

Lemma reached_to net self message c d :
  reached net self message c = Some d → to d = c.
Proof.
  unfold reached. destruct (active_connections self !! c); [|done].
  destruct (send_ok net _ message); [|done]. by intros [= <-].
Qed.

Lemma reached_registered net self message c d :
  reached net self message c = Some d → registered c self.
Proof.
  unfold reached, registered. intros H. apply elem_of_dom.
  destruct (active_connections self !! c); [eauto | done].
Qed.

Lemma delivered_cons net self message c rest :
  delivered net self message (c :: rest) =
    option_list (reached net self message c) ++ delivered net self message rest.
Proof. unfold delivered. cbn. by destruct (reached net self message c). Qed.

Lemma deliveries_to_delivered net self message (l : list string) c :
  NoDup l →
  deliveries_to c (delivered net self message l) =
    if bool_decide (c ∈ l) then option_list (reached net self message c) else [].
Proof.
  induction 1 as [|x l Hx Hl IH].
  - by rewrite bool_decide_eq_false_2 by set_solver.
  - rewrite delivered_cons. unfold deliveries_to in *. rewrite filter_app, IH.
    destruct (decide (c = x)) as [->|Hne].
    + rewrite (bool_decide_eq_false_2 (x ∈ l)) by done.
      rewrite (bool_decide_eq_true_2 (x ∈ x :: l)) by set_solver.
      rewrite app_nil_r.
      destruct (reached net self message x) as [d|] eqn:Hd; [|done].
      cbn. by rewrite decide_True by eauto using reached_to.
    + assert (filter (λ d, to d = c) (option_list (reached net self message x))
              = []) as ->.
      { destruct (reached net self message x) as [d|] eqn:Hd; [|done].
        cbn. rewrite decide_False; [done|].
        rewrite (reached_to _ _ _ _ _ Hd). congruence. }
      cbn. destruct (decide (c ∈ l)).
      * rewrite !bool_decide_eq_true_2 by set_solver. done.
      * rewrite !bool_decide_eq_false_2 by set_solver. done.
Qed.

Lemma broadcast_deliveries net message message_type w c :
  deliveries_to c (outbox (broadcast net message message_type w).2) =
    deliveries_to c (outbox w) ++
    if bool_decide (c ∈ recipients_of (manager w) message_type)
    then option_list (reached net (manager w) message c) else [].
Proof.
  rewrite broadcast_spec. cbn.
  pose proof (deliveries_to_delivered net (manager w) message _ c
                (NoDup_elements (recipients_of (manager w) message_type))) as H.
  unfold deliveries_to in *. rewrite filter_app, H. f_equal.
  destruct (decide (c ∈ recipients_of (manager w) message_type)).
  - rewrite !bool_decide_eq_true_2; [done..|]. by apply elem_of_elements.
  - rewrite !bool_decide_eq_false_2; [done..|]. by rewrite elem_of_elements.
Qed.

Lemma broadcast_returns net message message_type w :
  (broadcast net message message_type w).1 = Returned ().
Proof. by rewrite broadcast_spec. Qed.

(** ** [disconnect] *)

Lemma disconnect_unregistered client_id self :
  ¬ registered client_id self → disconnect client_id self = self.
Proof.
  unfold registered, disconnect. rewrite elem_of_dom. intros H.
  destruct (active_connections self !! client_id); [|done].
  exfalso. eauto.
Qed.

Lemma disconnect_registered client_id self :
  registered client_id self →
  disconnect client_id self =
    {| active_connections := delete client_id (active_connections self);
       subscriptions := (λ bucket, bucket ∖ {[client_id]}) <$> subscriptions self;
       connection_metadata := delete client_id (connection_metadata self) |}.
Proof.
  unfold registered, disconnect. rewrite elem_of_dom. intros [ws ->]. done.
Qed.

Lemma disconnect_not_registered client_id self :
  ¬ registered client_id (disconnect client_id self).
Proof.
  destruct (decide (registered client_id self)) as [H|H].
  - rewrite disconnect_registered by done. unfold registered. cbn.
    rewrite dom_delete_L. set_solver.
  - by rewrite disconnect_unregistered.
Qed.

Lemma disconnect_purges client_id self topic bucket :
  registered client_id self →
  subscriptions (disconnect client_id self) !! topic = Some bucket →
  client_id ∉ bucket.
Proof.
  intros H. rewrite disconnect_registered by done. cbn.
  rewrite lookup_fmap. destruct (subscriptions self !! topic); cbn; [|done].
  intros [= <-]. set_solver.
Qed.

Lemma disconnect_not_recipient client_id self message_type :
  registered client_id self →
  client_id ∉ recipients_of (disconnect client_id self) message_type.
Proof.
  intros H. pose proof (disconnect_not_registered client_id self) as Hn.
  unfold registered in Hn. unfold recipients_of.
  destruct message_type as [t|]; [|done].
  destruct (String.eqb t ""); [done|].
  destruct (subscriptions (disconnect client_id self) !! t) eqn:Ht; [|done].
  eauto using disconnect_purges.
Qed.

Lemma loops_all_gone net self message (l : list string) :
  (∀ c, c ∈ l → ¬ registered c self) →
  failing net self message l = [] ∧ delivered net self message l = [].
Proof.
  induction l as [|c rest IH]; intros Hall; [done|].
  assert (active_connections self !! c = None) as Hc.
  { apply not_elem_of_dom. apply Hall. set_solver. }
  destruct (loops_skip net self message c rest Hc) as [-> ->].
  apply IH. intros c' Hc'. apply Hall. set_solver.
Qed.

Lemma failing_pair net self message a b ws_a ws_b :
  a ≠ b →
  active_connections self !! a = Some ws_a →
  active_connections self !! b = Some ws_b →
  send_ok net ws_a message = false →
  send_ok net ws_b message = true →
  failing net self message (elements ({[a; b]} : gset string)) = [a].
Proof.
  intros Hab Ha Hb Hfa Hfb.
  apply Permutation_singleton_r. unfold failing.
  rewrite elements_union_singleton by set_solver.
  rewrite elements_singleton.
  destruct (loops_failed net self message a ws_a [b] Ha Hfa) as [E _].
  unfold failing in E. rewrite E.
  destruct (loops_sent net self message b ws_b [] Hb Hfb) as [E' _].
  unfold failing in E'. rewrite E'. done.
Qed.

(** ** Claims on [disconnect], [send_personal_message] and [broadcast] *)

(** C8: [disconnect] (unregister) is idempotent.  For an id that is not
    registered it returns the manager unchanged (all three dictionaries);
    applying it twice gives the same manager as applying it once; for a
    registered id it removes the connection and its metadata, takes the
    id out of every topic bucket and leaves the other connections alone.
    Being a total function it raises nothing. *)
Theorem disconnect_idempotent client_id self :
  (¬ registered client_id self → disconnect client_id self = self)
  ∧ disconnect client_id (disconnect client_id self) = disconnect client_id self
  ∧ (registered client_id self →
       ¬ registered client_id (disconnect client_id self)
       ∧ connection_metadata (disconnect client_id self) !! client_id = None
       ∧ (∀ topic bucket,
            subscriptions (disconnect client_id self) !! topic = Some bucket →
            client_id ∉ bucket)
       ∧ (∀ topic,
            subscriptions (disconnect client_id self) !! topic =
              (λ bucket, bucket ∖ {[client_id]}) <$> subscriptions self !! topic)
       ∧ (∀ other, other ≠ client_id →
            active_connections (disconnect client_id self) !! other =
              active_connections self !! other)).
Proof.
  split; [apply disconnect_unregistered|]. split.
  - apply disconnect_unregistered, disconnect_not_registered.
  - intros H. split; [apply disconnect_not_registered|].
    split; [|split; [|split]].
    + rewrite disconnect_registered by done. cbn. apply lookup_delete_eq.
    + intros topic bucket. by apply disconnect_purges.
    + intros topic. rewrite disconnect_registered by done. cbn.
      apply lookup_fmap.
    + intros other Hne. rewrite disconnect_registered by done. cbn.
      by apply lookup_delete_ne.
Qed.

(** C9: [send_personal_message] to an id without a connection returns
    normally and leaves the world (manager and sent frames) as it was;
    [broadcast] always returns normally, sends nothing to an id that has
    no connection even when the id sits in the bucket, and changes
    nothing at all when none of its recipients is connected. *)
Theorem send_to_unknown_is_noop net w message client_id :
  ¬ registered client_id (manager w) →
  send_personal_message net message client_id w = (Returned (), w)
  ∧ (∀ message_type,
       (broadcast net message message_type w).1 = Returned ()
       ∧ deliveries_to client_id
           (outbox (broadcast net message message_type w).2) =
         deliveries_to client_id (outbox w))
  ∧ (∀ message_type,
       (∀ c, c ∈ recipients_of (manager w) message_type →
             ¬ registered c (manager w)) →
       broadcast net message message_type w = (Returned (), w)).
Proof.
  intros Hgone. split; [|split].
  - unfold send_personal_message, mbind, Task_bind, get_manager.
    apply not_elem_of_dom in Hgone. by rewrite Hgone.
  - intros message_type. split; [apply broadcast_returns|].
    rewrite broadcast_deliveries.
    assert (reached net (manager w) message client_id = None) as ->.
    { destruct (reached net (manager w) message client_id) eqn:E; [|done].
      exfalso. eauto using reached_registered. }
    cbn. destruct (bool_decide _); by rewrite app_nil_r.
  - intros message_type Hall. rewrite broadcast_spec. cbn zeta.
    destruct (loops_all_gone net (manager w) message
                (elements (recipients_of (manager w) message_type))) as [-> ->].
    { intros c Hc. apply Hall. by apply elem_of_elements. }
    cbn. by rewrite app_nil_r, world_eta.
Qed.

(** C5: when a broadcast goes to the two recipients [S] and [S2], the
    send to [S] raises and the send to [S2] goes through, the broadcast
    still returns normally, [S2] gets its copy of the message, [S] gets
    nothing, and afterwards [S] is disconnected: it is no longer
    registered and no longer among the recipients of that topic, while
    [S2] stays registered. *)
Theorem broadcast_isolates_failure net w message message_type S S2 ws ws2 :
  S ≠ S2 →
  recipients_of (manager w) message_type = {[S; S2]} →
  active_connections (manager w) !! S = Some ws →
  active_connections (manager w) !! S2 = Some ws2 →
  send_ok net ws message = false →
  send_ok net ws2 message = true →
  (broadcast net message message_type w).1 = Returned ()
  ∧ deliveries_to S2 (outbox (broadcast net message message_type w).2) =
      (deliveries_to S2 (outbox w) ++
       [{| to := S2; socket := ws2; frame := message |}])
  ∧ deliveries_to S (outbox (broadcast net message message_type w).2) =
      deliveries_to S (outbox w)
  ∧ manager (broadcast net message message_type w).2 = disconnect S (manager w)
  ∧ ¬ registered S (manager (broadcast net message message_type w).2)
  ∧ (S ∉ recipients_of (manager (broadcast net message message_type w).2)
           message_type)
  ∧ registered S2 (manager (broadcast net message message_type w).2).
Proof.
  intros Hne Hrec HS HS2 Hfail Hok.
  assert (manager (broadcast net message message_type w).2
          = disconnect S (manager w)) as Hm.
  { rewrite broadcast_spec. cbn. rewrite Hrec.
    by rewrite (failing_pair net _ message S S2 ws ws2). }
  assert (registered S (manager w)) as HregS.
  { apply elem_of_dom. eauto. }
  split; [apply broadcast_returns|].
  rewrite !broadcast_deliveries, Hrec, Hm.
  rewrite !bool_decide_eq_true_2 by set_solver.
  unfold reached. rewrite HS, HS2, Hfail, Hok. cbn.
  split; [done|]. split; [by rewrite app_nil_r|]. split; [done|].
  split; [apply disconnect_not_registered|].
  split; [by apply disconnect_not_recipient|].
  rewrite disconnect_registered by done. unfold registered. cbn.
  rewrite dom_delete_L. apply elem_of_difference. split.
  - apply elem_of_dom. eauto.
  - set_solver.
Qed.

(** ** [subscribe] and [unsubscribe] *)

(** Both methods run the same loop over the topics, with a different
    operation on the bucket. *)
Lemma bucket_loop_lookup (g : gset string → gset string)
    (subs : gmap string (gset string)) (topics : list string) (t : string) :
  (∀ bucket, g (g bucket) = g bucket) →
  foldl (λ subs message_type,
           <[message_type := g (default ∅ (subs !! message_type))]> subs)
        subs topics !! t =
    if bool_decide (t ∈ topics) then Some (g (default ∅ (subs !! t)))
    else subs !! t.
Proof.
  intros Hg. induction topics as [|x rest IH] using rev_ind.
  - by rewrite bool_decide_eq_false_2 by apply not_elem_of_nil.
  - rewrite foldl_snoc. destruct (decide (x = t)) as [->|Hne].
    + rewrite lookup_insert_eq, IH.
      rewrite (bool_decide_eq_true_2 (t ∈ rest ++ [t]))
        by (apply elem_of_app; right; apply list_elem_of_singleton; done).
      destruct (bool_decide (t ∈ rest)); cbn; by rewrite ?Hg.
    + rewrite lookup_insert_ne, IH by done.
      destruct (decide (t ∈ rest)) as [Hin|Hin].
      * rewrite !bool_decide_eq_true_2; [done| |done].
        apply elem_of_app. by left.
      * rewrite !bool_decide_eq_false_2; [done| |done].
        rewrite elem_of_app, list_elem_of_singleton. naive_solver.
Qed.

Lemma subscribe_lookup client_id message_types self t :
  subscriptions (subscribe client_id message_types self) !! t =
    if bool_decide (t ∈ message_types)
    then Some (default ∅ (subscriptions self !! t) ∪ {[client_id]})
    else subscriptions self !! t.
Proof.
  unfold subscribe. cbn [subscriptions].
  apply (bucket_loop_lookup (λ bucket, bucket ∪ {[client_id]})).
  intros bucket. set_solver.
Qed.

Lemma unsubscribe_lookup client_id message_types self t :
  subscriptions (unsubscribe client_id message_types self) !! t =
    if bool_decide (t ∈ message_types)
    then Some (default ∅ (subscriptions self !! t) ∖ {[client_id]})
    else subscriptions self !! t.
Proof.
  unfold unsubscribe. cbn [subscriptions].
  apply (bucket_loop_lookup (λ bucket, bucket ∖ {[client_id]})).
  intros bucket. set_solver.
Qed.

Lemma manager_eq (m1 m2 : ConnectionManager) :
  active_connections m1 = active_connections m2 →
  subscriptions m1 = subscriptions m2 →
  connection_metadata m1 = connection_metadata m2 →
  m1 = m2.
Proof. destruct m1, m2. cbn. by intros -> -> ->. Qed.

Lemma subscribe_twice client_id message_types self :
  subscribe client_id message_types (subscribe client_id message_types self)
  = subscribe client_id message_types self.
Proof.
  apply manager_eq; [done| |done].
  apply map_eq. intros t. rewrite !subscribe_lookup.
  destruct (bool_decide (t ∈ message_types)); [|done].
  cbn. f_equal. set_solver.
Qed.

(** C10: subscribing is idempotent, and a broadcast gives each id at most
    one copy.  Running the same [subscribe] twice, or any number of times
    more, leaves the manager exactly as one run does; and whatever the
    world, a single [broadcast] appends at most one frame for any given
    client id to the frames already sent. *)
Theorem subscribe_idempotent client_id message_types self :
  subscribe client_id message_types (subscribe client_id message_types self)
  = subscribe client_id message_types self
  ∧ (∀ n, Nat.iter (S n) (subscribe client_id message_types) self
          = subscribe client_id message_types self)
  ∧ (∀ net message message_type w c,
       ∃ copies,
         deliveries_to c (outbox (broadcast net message message_type w).2) =
           (deliveries_to c (outbox w) ++ copies)
         ∧ (length copies ≤ 1)%nat
         ∧ ∀ d, d ∈ copies → frame d = message).
Proof.
  split; [apply subscribe_twice|]. split.
  - induction n as [|n IH]; [done|].
    change (Nat.iter (S (S n)) (subscribe client_id message_types) self)
      with (subscribe client_id message_types
              (Nat.iter (S n) (subscribe client_id message_types) self)).
    rewrite IH. apply subscribe_twice.
  - intros net message message_type w c. rewrite broadcast_deliveries.
    eexists. split; [done|].
    destruct (bool_decide _); [|split; [cbn; lia | by intros d ?%elem_of_nil]].
    unfold reached. destruct (active_connections (manager w) !! c) as [ws'|];
      [|split; [cbn; lia | by intros d ?%elem_of_nil]].
    destruct (send_ok net ws' message);
      [|split; [cbn; lia | by intros d ?%elem_of_nil]].
    split; [cbn; lia|]. intros d ->%list_elem_of_singleton. done.
Qed.

(** What the [else] branch of [broadcast] does with a topic that has no
    bucket: the recipients are all connected clients. *)
Lemma broadcast_without_bucket net w message topic c ws :
  subscriptions (manager w) !! topic = None →
  active_connections (manager w) !! c = Some ws →
  send_ok net ws message = true →
  deliveries_to c (outbox (broadcast net message (Some topic) w).2) =
    (deliveries_to c (outbox w) ++
     [{| to := c; socket := ws; frame := message |}]).
Proof.
  intros Hb Hc Hok. rewrite broadcast_deliveries.
  assert (recipients_of (manager w) (Some topic)
          = dom (active_connections (manager w))) as ->.
  { unfold recipients_of. rewrite Hb. by destruct (String.eqb topic ""). }
  rewrite bool_decide_eq_true_2 by (apply elem_of_dom; eauto).
  unfold reached. by rewrite Hc, Hok.
Qed.

(** C1 as the code has it: on a non-empty topic that has a bucket, a
    client outside the bucket gets nothing from the broadcast, which
    returns normally; in particular a broadcast on a topic whose bucket
    is empty sends nothing at all. *)
Theorem broadcast_outside_bucket net w message T2 bucket S :
  T2 ≠ "" →
  subscriptions (manager w) !! T2 = Some bucket →
  S ∉ bucket →
  (broadcast net message (Some T2) w).1 = Returned ()
  ∧ deliveries_to S (outbox (broadcast net message (Some T2) w).2) =
      deliveries_to S (outbox w)
  ∧ (bucket = ∅ → broadcast net message (Some T2) w = (Returned (), w)).
Proof.
  intros Hne Hb HS.
  assert (recipients_of (manager w) (Some T2) = bucket) as Hrec.
  { unfold recipients_of. rewrite Hb. by destruct (String.eqb_spec T2 ""). }
  split; [apply broadcast_returns|]. split.
  - rewrite broadcast_deliveries, Hrec.
    rewrite bool_decide_eq_false_2 by done. by rewrite app_nil_r.
  - intros ->. rewrite broadcast_spec, Hrec, elements_empty. cbn.
    by rewrite app_nil_r, world_eta.
Qed.

(** ** The topic index along sequences of operations *)

Lemma mirrors_no_orphans self sessions :
  mirrors self sessions → no_orphans self.
Proof.
  intros [Hdom Hmem]. apply map_Forall_lookup. intros topic bucket Hb c Hc.
  rewrite <- Hdom. apply elem_of_dom.
  assert (topic ∈ default ∅ (sessions !! c)) as Ht.
  { apply Hmem. by rewrite Hb. }
  destruct (sessions !! c); [eauto|]. cbn in Ht. set_solver.
Qed.

Lemma mirrors_unregistered self sessions c topic :
  mirrors self sessions → ¬ registered c self →
  c ∉ default ∅ (subscriptions self !! topic).
Proof.
  intros [Hdom Hmem] Hc Hin. apply Hmem in Hin.
  unfold registered in Hc. rewrite <- Hdom in Hc.
  apply not_elem_of_dom in Hc. rewrite Hc in Hin. set_solver.
Qed.

Lemma mirrors_lookup self sessions c :
  mirrors self sessions →
  is_Some (sessions !! c) ↔ registered c self.
Proof. intros [Hdom _]. unfold registered. by rewrite <- Hdom, elem_of_dom. Qed.

Lemma step_register net w websocket client_id now1 now2 :
  step net w (Register websocket client_id now1 now2) =
    if accept_ok net websocket
    then {| manager :=
              {| active_connections :=
                   <[client_id := websocket]> (active_connections (manager w));
                 subscriptions := subscriptions (manager w);
                 connection_metadata :=
                   <[client_id := {| connected_at := now1; last_ping := now2 |}]>
                     (connection_metadata (manager w)) |};
            outbox := outbox w |}
    else w.
Proof.
  unfold step, apply_op, connect, accept, mbind, Task_bind.
  by destruct (accept_ok net websocket).
Qed.

Lemma mirrors_step net w sessions op :
  mirrors (manager w) sessions →
  match op with
  | Subscribe client_id _ => registered client_id (manager w)
  | _ => True
  end →
  mirrors (manager (step net w op)) (spec_step net sessions op).
Proof.
  intros Hm Hop. pose proof Hm as [Hdom Hmem].
  destruct op as [ws c t1 t2|c|c ts|c ts].
  - rewrite step_register. cbn [spec_step].
    destruct (accept_ok net ws); [|done].
    destruct (sessions !! c) as [T|] eqn:Hs.
    + split; [|done]. cbn. rewrite dom_insert_L, <- Hdom.
      assert (c ∈ dom sessions) by (apply elem_of_dom; eauto). set_solver.
    + split; cbn.
      * rewrite !dom_insert_L. by rewrite Hdom.
      * intros c' topic. rewrite Hmem.
        destruct (decide (c = c')) as [<-|Hne].
        -- by rewrite lookup_insert_eq, Hs.
        -- by rewrite lookup_insert_ne.
  - cbn [step apply_op call snd manager spec_step].
    destruct (decide (registered c (manager w))) as [Hr|Hr].
    + rewrite disconnect_registered by done. split; cbn.
      * rewrite !dom_delete_L. by rewrite Hdom.
      * intros c' topic. rewrite lookup_fmap.
        destruct (decide (c = c')) as [<-|Hne].
        -- rewrite lookup_delete_eq. cbn.
           destruct (subscriptions (manager w) !! topic); cbn; set_solver.
        -- rewrite lookup_delete_ne by done. rewrite <- Hmem.
           destruct (subscriptions (manager w) !! topic); cbn; set_solver.
    + rewrite disconnect_unregistered by done.
      rewrite delete_id; [done|].
      apply eq_None_not_Some. by rewrite (mirrors_lookup _ _ c Hm).
  - cbn [step apply_op call snd manager spec_step].
    destruct (proj2 (mirrors_lookup _ _ c Hm) Hop) as [T HT]. rewrite HT.
    split; cbn.
    + rewrite dom_insert_L, <- Hdom.
      assert (c ∈ dom sessions) by (apply elem_of_dom; eauto). set_solver.
    + intros c' topic.
      change (foldl _ _ ts) with (subscriptions (subscribe c ts (manager w))).
      rewrite subscribe_lookup.
      specialize (Hmem c' topic).
      destruct (decide (c = c')) as [<-|Hne].
      * rewrite lookup_insert_eq. rewrite HT in Hmem. cbn in *.
        destruct (decide (topic ∈ ts)) as [Hin|Hin].
        -- rewrite bool_decide_eq_true_2 by done. cbn.
           rewrite !elem_of_union, elem_of_list_to_set. set_solver.
        -- rewrite bool_decide_eq_false_2 by done.
           rewrite elem_of_union, elem_of_list_to_set. tauto.
      * rewrite lookup_insert_ne by done. rewrite <- Hmem.
        destruct (bool_decide (topic ∈ ts)); [|done]. cbn. set_solver.
  - cbn [step apply_op call snd manager spec_step].
    assert (∀ c' topic,
              c' ∈ default ∅ (subscriptions (unsubscribe c ts (manager w)) !! topic)
              ↔ c' ∈ default ∅ (subscriptions (manager w) !! topic)
                ∧ ¬ (c' = c ∧ topic ∈ ts)) as Hun.
    { intros c' topic. rewrite unsubscribe_lookup.
      destruct (decide (topic ∈ ts)) as [Hin|Hin].
      - rewrite bool_decide_eq_true_2 by done. cbn.
        rewrite elem_of_difference, elem_of_singleton. tauto.
      - rewrite bool_decide_eq_false_2 by done. tauto. }
    destruct (sessions !! c) as [T|] eqn:HT.
    + split; cbn.
      * rewrite dom_insert_L, <- Hdom.
        assert (c ∈ dom sessions) by (apply elem_of_dom; eauto). set_solver.
      * intros c' topic.
        change (foldl _ _ ts) with (subscriptions (unsubscribe c ts (manager w))).
        rewrite Hun. specialize (Hmem c' topic). rewrite Hmem.
        destruct (decide (c = c')) as [<-|Hne].
        -- rewrite lookup_insert_eq, HT. cbn.
           rewrite elem_of_difference, elem_of_list_to_set. tauto.
        -- rewrite lookup_insert_ne by done. naive_solver.
    + split; [done|]. intros c' topic.
      change (subscriptions (manager _))
        with (subscriptions (unsubscribe c ts (manager w))).
      rewrite Hun, <- Hmem. split; [tauto|]. intros Hin. split; [done|].
      intros [-> _].
      apply (mirrors_unregistered _ _ c topic Hm); [|done].
      rewrite <- (mirrors_lookup _ _ c Hm), HT. by intros [? ?].
Qed.

Lemma subscribers_registered_cons net op rest w :
  subscribers_registered net (op :: rest) w = true →
  match op with
  | Subscribe client_id _ => registered client_id (manager w)
  | _ => True
  end ∧ subscribers_registered net rest (step net w op) = true.
Proof.
  cbn [subscribers_registered]. intros [H1 H2]%andb_true_iff. split; [|done].
  destruct op; try done. by apply bool_decide_eq_true_1 in H1.
Qed.

Lemma mirrors_run net ops w sessions n :
  mirrors (manager w) sessions →
  subscribers_registered net ops w = true →
  mirrors (manager (run_ops net (take n ops) w))
          (spec_run net (take n ops) sessions).
Proof.
  revert w sessions n. induction ops as [|op rest IH]; intros w sessions n Hm Hok.
  - by rewrite take_nil.
  - destruct n as [|n]; [done|].
    apply subscribers_registered_cons in Hok as [Hop Hrest].
    cbn [take]. unfold run_ops, spec_run. cbn [foldl].
    apply IH; [|done]. by apply mirrors_step.
Qed.

Lemma mirrors_new : mirrors new_manager ∅.
Proof. split; [done|]. intros c topic. cbn. by rewrite !lookup_empty. Qed.

(** C4 as the code has it: along every sequence of register, unregister,
    subscribe and unsubscribe calls in which each subscribe names an id
    that is registered when it runs, after every call no bucket of the
    topic index holds an id without a connection, and the index mirrors
    the per-session topic sets of the specification: the registered ids
    are the same and an id is in the bucket of a topic exactly when the
    topic is among its topics. *)
Theorem index_consistent net ops w sessions n :
  mirrors (manager w) sessions →
  subscribers_registered net ops w = true →
  no_orphans (manager (run_ops net (take n ops) w))
  ∧ mirrors (manager (run_ops net (take n ops) w))
            (spec_run net (take n ops) sessions).
Proof.
  intros Hm Hok. pose proof (mirrors_run net ops w sessions n Hm Hok) as H.
  split; [|done]. by apply mirrors_no_orphans in H.
Qed.

(** ** [connect] *)

(** C6 as the code has it: [connect] has no duplicate check.  When the
    handshake succeeds and the id is already registered, the call returns
    normally, the id now maps to the new socket and to fresh metadata,
    and the subscriptions and the frames sent so far are untouched. *)
Theorem connect_overwrites net w websocket client_id now1 now2 :
  accept_ok net websocket = true →
  registered client_id (manager w) →
  (connect net websocket client_id now1 now2 w).1 = Returned ()
  ∧ active_connections
      (manager (connect net websocket client_id now1 now2 w).2) =
      <[client_id := websocket]> (active_connections (manager w))
  ∧ connection_metadata
      (manager (connect net websocket client_id now1 now2 w).2) =
      <[client_id := {| connected_at := now1; last_ping := now2 |}]>
        (connection_metadata (manager w))
  ∧ subscriptions (manager (connect net websocket client_id now1 now2 w).2) =
      subscriptions (manager w)
  ∧ outbox (connect net websocket client_id now1 now2 w).2 = outbox w.
Proof.
  intros Hok _. unfold connect, accept, mbind, Task_bind. rewrite Hok. done.
Qed.

(** C7 as the code has it: neither method checks that the id is
    registered.  For an id without a connection, [subscribe] puts the id
    into the bucket of every listed topic, [unsubscribe] puts it into no
    bucket, and both leave the connections and the metadata as they were;
    being total functions they raise nothing. *)
Theorem subscribe_unknown_session client_id message_types self :
  ¬ registered client_id self →
  (∀ topic, topic ∈ message_types →
     client_id ∈ default ∅
       (subscriptions (subscribe client_id message_types self) !! topic))
  ∧ (∀ topic,
       client_id ∈ default ∅
         (subscriptions (unsubscribe client_id message_types self) !! topic) →
       client_id ∈ default ∅ (subscriptions self !! topic))
  ∧ active_connections (subscribe client_id message_types self) =
      active_connections self
  ∧ active_connections (unsubscribe client_id message_types self) =
      active_connections self
  ∧ connection_metadata (subscribe client_id message_types self) =
      connection_metadata self
  ∧ connection_metadata (unsubscribe client_id message_types self) =
      connection_metadata self.
Proof.
  intros _. split; [|split; [|done]].
  - intros topic Hin. rewrite subscribe_lookup.
    rewrite bool_decide_eq_true_2 by done. cbn. set_solver.
  - intros topic. rewrite unsubscribe_lookup.
    destruct (bool_decide (topic ∈ message_types)); [|done]. cbn. set_solver.
Qed.

(** ** The metrics loop *)

Lemma get_live_metrics_spec query w :
  get_live_metrics query w = (Returned (metrics_of query), w).
Proof. by destruct query. Qed.

Lemma send_metrics_updates_spec net ticks client_id websocket w :
  active_connections (manager w) !! client_id = Some websocket →
  (∀ message, send_ok net websocket message = true) →
  send_metrics_updates net ticks client_id w =
    (Returned Running,
     {| manager := manager w;
        outbox := outbox w ++ (metrics_frame client_id websocket <$> ticks) |}).
Proof.
  intros Hc Hok. revert w Hc.
  induction ticks as [|tick later IH]; intros w Hc.
  - cbn. by rewrite app_nil_r, world_eta.
  - cbn [send_metrics_updates]. unfold mbind at 1, Task_bind at 1, get_manager.
    rewrite Hc. unfold mbind at 1, Task_bind at 1, try_except.
    unfold mbind at 1, Task_bind at 1. rewrite get_live_metrics_spec.
    unfold mbind at 1, Task_bind at 1, send_personal_message.
    unfold mbind at 1, Task_bind at 1, get_manager. rewrite Hc.
    unfold try_except, send_json. rewrite Hok.
    unfold sleep, mbind, Task_bind, mret, Task_ret.
    rewrite IH by done. cbn. by rewrite <- app_assoc.
Qed.

(** C3 as the code has it: [get_live_metrics] turns a failed query into
    the empty dictionary, so the loop does not skip the failed tick.  For
    a connected client whose sends go through, with the query failing on
    the second of three ticks, the loop sends three [metrics] messages,
    the second one with empty data, it is still running afterwards and
    the client is still registered. *)
Theorem pump_sends_on_failed_tick net w S websocket t1 t2 t3 :
  active_connections (manager w) !! S = Some websocket →
  (∀ message, send_ok net websocket message = true) →
  (∃ row, live_query t1 = Row row) →
  live_query t2 = QueryRaises →
  (∃ row, live_query t3 = Row row) →
  (send_metrics_updates net [t1; t2; t3] S w).1 = Returned Running
  ∧ registered S (manager (send_metrics_updates net [t1; t2; t3] S w).2)
  ∧ outbox (send_metrics_updates net [t1; t2; t3] S w).2 =
      (outbox w ++ [metrics_frame S websocket t1;
                    metrics_frame S websocket t2;
                    metrics_frame S websocket t3])
  ∧ length (of_type "metrics"
              (deliveries_to S [metrics_frame S websocket t1;
                                metrics_frame S websocket t2;
                                metrics_frame S websocket t3])) = 3%nat
  ∧ msg_data (frame (metrics_frame S websocket t2)) = EmptyDict.
Proof.
  intros Hc Hok _ H2 _.
  rewrite (send_metrics_updates_spec net _ S websocket w Hc Hok). cbn.
  split; [done|]. split; [apply elem_of_dom; eauto|]. split; [done|].
  split; [|by rewrite H2].
  unfold deliveries_to, of_type, metrics_frame. cbn.
  rewrite !decide_True by done. cbn. by rewrite !decide_True by done.
Qed.

(** ** The milestone monitor *)

Lemma in_band_spec daily_revenue milestone :
  in_band daily_revenue milestone = true
  ↔ (inject_Z milestone <= daily_revenue
     ∧ daily_revenue < times_1_1 milestone)%Q.
Proof.
  unfold in_band. rewrite andb_true_iff, negb_true_iff, Qle_bool_iff.
  rewrite <- not_true_iff_false, Qle_bool_iff.
  split; intros [H1 H2]; (split; [done|]).
  - by apply Qnot_le_lt.
  - by apply Qlt_not_le.
Qed.

Lemma check_milestones_spec net daily_revenue now todo w :
  (check_milestones net daily_revenue now todo w).1 =
    Returned (find (in_band daily_revenue) todo).
Proof.
  induction todo as [|milestone rest IH]; [done|].
  cbn [check_milestones find]. destruct (in_band daily_revenue milestone); [|done].
  unfold mbind, Task_bind, broadcast_revenue_milestone.
  by rewrite broadcast_spec.
Qed.

Lemma monitor_iteration_spec net tick w :
  (monitor_iteration net tick w).1 = Returned (milestone_due tick).
Proof.
  unfold monitor_iteration, milestone_due.
  destruct (revenue_query tick) as [| |column]; [done..|].
  pose proof (check_milestones_spec net (float64 (default 0%Q column))
                (monitor_time tick) milestones w) as H.
  destruct (check_milestones net (float64 (default 0%Q column))
              (monitor_time tick) milestones w) as [o w'] eqn:E.
  cbn [fst] in H. subst o.
  unfold try_except, mbind at 1, Task_bind at 1. cbn [execute_one].
  unfold mret at 1, Task_ret at 1, mbind at 1, Task_bind at 1. cbn [subscript].
  unfold mret at 1, Task_ret at 1, mbind at 1, Task_bind at 1.
  by rewrite E.
Qed.

Lemma monitor_business_metrics_spec net ticks w :
  (monitor_business_metrics net ticks w).1 = Returned (milestone_due <$> ticks).
Proof.
  revert w. induction ticks as [|tick later IH]; intros w; [done|].
  cbn [monitor_business_metrics]. unfold mbind, Task_bind.
  pose proof (monitor_iteration_spec net tick w) as H.
  destruct (monitor_iteration net tick w) as [o w']. cbn in H. rewrite H.
  specialize (IH w').
  destruct (monitor_business_metrics net later w') as [o' w''].
  cbn in IH. by rewrite IH.
Qed.

(** The five products [milestone * 1.1] as binary64 computes them: the
    first three lie just above 27500, 55000 and 110000. *)
Lemma times_1_1_table :
  times_1_1 25000 = 7559142440960001 # 274877906944
  ∧ times_1_1 50000 = 7559142440960001 # 137438953472
  ∧ times_1_1 100000 = 7559142440960001 # 68719476736
  ∧ times_1_1 250000 = 275000
  ∧ times_1_1 500000 = 550000.
Proof. repeat split; vm_compute; reflexivity. Qed.

(** The rounding agrees with the IEEE 754 multiplication of the Standard
    Library on the operands the monitor uses. *)
Lemma times_1_1_is_binary64_product :
  float64 (11 # 10) = SF2Q literal_1_1
  ∧ Forall (λ milestone,
              times_1_1 milestone =
                SF2Q (SFmul 53 1024 (S754_finite false (Z.to_pos milestone) 0)
                        literal_1_1))
           milestones.
Proof.
  split; [vm_compute; reflexivity|].
  repeat (apply Forall_cons; split; [vm_compute; reflexivity|]).
  apply Forall_nil_2.
Qed.

(** The conversion agrees with the IEEE 754 division of the Standard
    Library on sample decimals. *)
Lemma float64_is_binary64_quotient :
  Forall (λ '(n, d),
            float64 (Zpos n # d) =
              SF2Q (SFdiv 53 1024 (S754_finite false n 0)
                      (S754_finite false d 0)))
         [(1, 10); (11, 10); (1, 3); (2499999, 100); (2650001, 100);
          (2750001, 100); (123456789, 1000); (5500000001, 100000)]%positive.
Proof.
  repeat (apply Forall_cons; split; [vm_compute; reflexivity|]).
  apply Forall_nil_2.
Qed.

Lemma milestone_bands_disjoint daily_revenue m1 m2 :
  m1 ∈ milestones → m2 ∈ milestones →
  in_band daily_revenue m1 = true → in_band daily_revenue m2 = true →
  m1 = m2.
Proof.
  destruct times_1_1_table as (T1 & T2 & T3 & T4 & T5).
  unfold milestones. rewrite !elem_of_cons, !elem_of_nil.
  rewrite !in_band_spec. intros Hm1 Hm2.
  destruct_or!; try (exfalso; assumption); subst;
    rewrite ?T1, ?T2, ?T3, ?T4, ?T5;
    unfold Qle, Qlt; cbn; destruct daily_revenue as [num den]; cbn; lia.
Qed.

Lemma find_in_band daily_revenue milestone :
  find (in_band daily_revenue) milestones = Some milestone
  ↔ milestone ∈ milestones ∧ in_band daily_revenue milestone = true.
Proof.
  split.
  - intros [Hin Hb]%find_some. split; [|done]. by apply list_elem_of_In.
  - intros [Hin Hb].
    destruct (find (in_band daily_revenue) milestones) as [m'|] eqn:Hf.
    + apply find_some in Hf as [Hin' Hb']. apply list_elem_of_In in Hin'.
      f_equal. by apply (milestone_bands_disjoint daily_revenue).
    + apply list_elem_of_In in Hin.
      pose proof (find_none _ _ Hf _ Hin) as Hn. congruence.
Qed.

(** * Concrete runs *)

(** C1, counterexample: with ["a"] connected and no bucket for ["alert"],
    a broadcast on ["alert"] reaches ["a"], which never subscribed; once
    an empty bucket exists for the topic the same broadcast reaches
    nobody, so an absent bucket is not treated like an empty one. *)
Lemma broadcast_unknown_topic_reaches_all :
  subscriptions (manager lobby) !! "alert" = None
  ∧ deliveries_to "a"
      (outbox (broadcast reliable test_alert (Some "alert") lobby).2) =
      [{| to := "a"; socket := Socket 1; frame := test_alert |}]
  ∧ subscriptions (manager (step reliable lobby (Unsubscribe "b" ["alert"])))
      !! "alert" = Some ∅
  ∧ deliveries_to "a"
      (outbox (broadcast reliable test_alert (Some "alert")
                 (step reliable lobby (Unsubscribe "b" ["alert"]))).2) = [].
Proof. repeat split; vm_compute; reflexivity. Qed.

(** C2, counterexample: on the revenues 24000, 26000, 26500, 51000 the
    monitor does not fire at ticks 2 and 4 only; it also fires at tick 3,
    where the revenue is still between 25000 and 27500.  A client
    subscribed to ["alert"] receives three alerts, not two. *)
Lemma milestone_refires_inside_band :
  (monitor_business_metrics reliable
     (revenue_tick <$> [24000; 26000; 26500; 51000]%Z) both_on_alert).1
  = Returned [None; Some 25000%Z; Some 25000%Z; Some 50000%Z]
  ∧ (monitor_business_metrics reliable
       (revenue_tick <$> [24000; 26000; 26500; 51000]%Z) both_on_alert).1
    ≠ Returned [None; Some 25000%Z; None; Some 50000%Z]
  ∧ (msg_data ∘ frame) <$>
      deliveries_to "a"
        (outbox (monitor_business_metrics reliable
                   (revenue_tick <$> [24000; 26000; 26500; 51000]%Z)
                   both_on_alert).2)
    = [MilestoneAlert 25000; MilestoneAlert 25000; MilestoneAlert 50000]
  ∧ length (of_type "alert"
              (deliveries_to "a"
                 (outbox (monitor_business_metrics reliable
                            (revenue_tick <$> [24000; 26000; 26500; 51000]%Z)
                            both_on_alert).2))) ≠ 2%nat.
Proof.
  split; [by vm_compute|]. split; [vm_compute; intros [=]|].
  split; [by vm_compute|]. vm_compute. intros [=].
Qed.

(** C3, counterexample: with the query failing on the second of three
    ticks, client ["a"] receives three [metrics] messages, not two. *)
Lemma pump_sends_three_frames :
  length (of_type "metrics"
            (deliveries_to "a"
               (outbox (send_metrics_updates reliable
                          [good_tick 1; failed_tick 2; good_tick 3] "a"
                          lobby).2))) = 3%nat
  ∧ length (of_type "metrics"
              (deliveries_to "a"
                 (outbox (send_metrics_updates reliable
                            [good_tick 1; failed_tick 2; good_tick 3] "a"
                            lobby).2))) ≠ 2%nat.
Proof. split; [by vm_compute|]. vm_compute. intros [=]. Qed.

(** C4, counterexample: a subscribe handled after the client was
    unregistered leaves its id in a bucket without a connection. *)
Lemma stale_subscribe_leaves_orphan :
  ¬ no_orphans (manager (run_ops reliable stale_subscribe new_world)).
Proof.
  assert (bool_decide
            (no_orphans (manager (run_ops reliable stale_subscribe new_world)))
          = false) as E by (by vm_compute).
  by apply bool_decide_eq_false in E.
Qed.

(** C6, counterexample: connecting a second socket under a registered id
    returns normally and replaces the socket and the metadata. *)
Lemma connect_twice_replaces :
  registered "a" (manager lobby)
  ∧ (connect reliable (Socket 7) "a" 20 21 lobby).1 = Returned ()
  ∧ active_connections (manager lobby) !! "a" = Some (Socket 1)
  ∧ active_connections
      (manager (connect reliable (Socket 7) "a" 20 21 lobby).2) !! "a"
    = Some (Socket 7)
  ∧ connection_metadata
      (manager (connect reliable (Socket 7) "a" 20 21 lobby).2) !! "a"
    = Some {| connected_at := 20; last_ping := 21 |}.
Proof.
  split; [apply (bool_decide_unpack _); by vm_compute|].
  repeat split; vm_compute; reflexivity.
Qed.

(** C7, counterexample: subscribing an id that was never registered puts
    it into the bucket. *)
Lemma subscribe_accepts_unknown_id :
  ¬ registered "ghost" new_manager
  ∧ subscriptions (subscribe "ghost" ["alert"] new_manager) !! "alert"
    = Some {["ghost"]}.
Proof.
  split; [|vm_compute; reflexivity].
  assert (bool_decide (registered "ghost" new_manager) = false) as E
    by (by vm_compute).
  by apply bool_decide_eq_false in E.
Qed.

(** ** The theorems at concrete inputs *)

(** [broadcast_outside_bucket] with ["b"] subscribed to ["alert"] and
    ["a"] not: the broadcast on ["alert"] sends nothing to ["a"]. *)
Lemma broadcast_outside_bucket_witness :
  "alert" ≠ ""
  ∧ subscriptions (manager (step reliable lobby (Subscribe "b" ["alert"])))
      !! "alert" = Some {["b"]}
  ∧ ("a" ∉ ({["b"]} : gset string))
  ∧ deliveries_to "a"
      (outbox (broadcast reliable test_alert (Some "alert")
                 (step reliable lobby (Subscribe "b" ["alert"]))).2) =
    deliveries_to "a" (outbox (step reliable lobby (Subscribe "b" ["alert"]))).
Proof.
  assert ("alert" ≠ "") as H1 by discriminate.
  assert (subscriptions (manager (step reliable lobby (Subscribe "b" ["alert"])))
            !! "alert" = Some {["b"]}) as H2 by (vm_compute; reflexivity).
  assert ("a" ∉ ({["b"]} : gset string)) as H3
    by (apply not_elem_of_singleton; discriminate).
  exact (conj H1 (conj H2 (conj H3
    (proj1 (proj2 (broadcast_outside_bucket reliable _ test_alert "alert"
                     {["b"]} "a" H1 H2 H3)))))).
Defined.

(** [pump_sends_on_failed_tick] for client ["a"] of [lobby]. *)
Lemma pump_sends_on_failed_tick_witness :
  active_connections (manager lobby) !! "a" = Some (Socket 1)
  ∧ (send_metrics_updates reliable
       [good_tick 1; failed_tick 2; good_tick 3] "a" lobby).1 = Returned Running
  ∧ outbox (send_metrics_updates reliable
              [good_tick 1; failed_tick 2; good_tick 3] "a" lobby).2 =
      (outbox lobby ++ [metrics_frame "a" (Socket 1) (good_tick 1);
                        metrics_frame "a" (Socket 1) (failed_tick 2);
                        metrics_frame "a" (Socket 1) (good_tick 3)]).
Proof.
  assert (active_connections (manager lobby) !! "a" = Some (Socket 1)) as H1
    by (vm_compute; reflexivity).
  pose proof (pump_sends_on_failed_tick reliable lobby "a" (Socket 1)
                (good_tick 1) (failed_tick 2) (good_tick 3) H1
                (λ _, eq_refl) (ex_intro _ _ eq_refl) eq_refl
                (ex_intro _ _ eq_refl)) as (Hrun & _ & Hout & _).
  exact (conj H1 (conj Hrun Hout)).
Defined.

(** [index_consistent] on a whole session started from the empty
    manager. *)
Lemma index_consistent_witness :
  subscribers_registered reliable guarded_session new_world = true
  ∧ no_orphans (manager (run_ops reliable (take 2 guarded_session) new_world))
  ∧ mirrors (manager (run_ops reliable (take 2 guarded_session) new_world))
            (spec_run reliable (take 2 guarded_session) ∅).
Proof.
  assert (subscribers_registered reliable guarded_session new_world = true)
    as H1 by (vm_compute; reflexivity).
  exact (conj H1
    (index_consistent reliable guarded_session new_world ∅ 2 mirrors_new H1)).
Defined.

(** [broadcast_isolates_failure] with the socket of ["a"] broken. *)
Lemma broadcast_isolates_failure_witness :
  recipients_of (manager both_on_alert) (Some "alert") = {["a"; "b"]}
  ∧ send_ok (broken_at (Socket 1)) (Socket 1) test_alert = false
  ∧ send_ok (broken_at (Socket 1)) (Socket 2) test_alert = true
  ∧ deliveries_to "b"
      (outbox (broadcast (broken_at (Socket 1)) test_alert (Some "alert")
                 both_on_alert).2) =
      (deliveries_to "b" (outbox both_on_alert) ++
       [{| to := "b"; socket := Socket 2; frame := test_alert |}])
  ∧ ¬ registered "a"
        (manager (broadcast (broken_at (Socket 1)) test_alert (Some "alert")
                    both_on_alert).2).
Proof.
  assert ("a" ≠ "b") as Hne by discriminate.
  assert (recipients_of (manager both_on_alert) (Some "alert") = {["a"; "b"]})
    as H1 by (vm_compute; reflexivity).
  assert (active_connections (manager both_on_alert) !! "a" = Some (Socket 1))
    as H2 by (vm_compute; reflexivity).
  assert (active_connections (manager both_on_alert) !! "b" = Some (Socket 2))
    as H3 by (vm_compute; reflexivity).
  pose proof (broadcast_isolates_failure (broken_at (Socket 1)) both_on_alert
                test_alert (Some "alert") "a" "b" (Socket 1) (Socket 2)
                Hne H1 H2 H3 eq_refl eq_refl) as (_ & Hb & _ & _ & Ha & _).
  exact (conj H1 (conj eq_refl (conj eq_refl (conj Hb Ha)))).
Defined.

(** [connect_overwrites] for a second socket under the id ["a"]. *)
Lemma connect_overwrites_witness :
  accept_ok reliable (Socket 7) = true
  ∧ registered "a" (manager lobby)
  ∧ (connect reliable (Socket 7) "a" 20 21 lobby).1 = Returned ()
  ∧ active_connections
      (manager (connect reliable (Socket 7) "a" 20 21 lobby).2) =
      <["a" := Socket 7]> (active_connections (manager lobby)).
Proof.
  assert (registered "a" (manager lobby)) as H1
    by (apply (bool_decide_unpack _); vm_compute; exact I).
  pose proof (connect_overwrites reliable lobby (Socket 7) "a" 20 21
                eq_refl H1) as (Hret & Hact & _).
  exact (conj eq_refl (conj H1 (conj Hret Hact))).
Defined.

(** [subscribe_unknown_session] for an id that was never registered. *)
Lemma subscribe_unknown_session_witness :
  ¬ registered "ghost" new_manager
  ∧ "ghost" ∈ default ∅
      (subscriptions (subscribe "ghost" ["alert"] new_manager) !! "alert").
Proof.
  assert (¬ registered "ghost" new_manager) as H1.
  { unfold registered. cbn. rewrite dom_empty_L. apply not_elem_of_empty. }
  assert ("alert" ∈ ["alert"]) as H2 by (apply list_elem_of_here).
  exact (conj H1
    (proj1 (subscribe_unknown_session "ghost" ["alert"] new_manager H1)
       "alert" H2)).
Defined.

(** [disconnect_idempotent] for a subscribed client. *)
Lemma disconnect_idempotent_witness :
  registered "a" (manager both_on_alert)
  ∧ disconnect "a" (disconnect "a" (manager both_on_alert)) =
      disconnect "a" (manager both_on_alert)
  ∧ ¬ registered "a" (disconnect "a" (manager both_on_alert)).
Proof.
  assert (registered "a" (manager both_on_alert)) as H1
    by (apply (bool_decide_unpack _); vm_compute; exact I).
  pose proof (disconnect_idempotent "a" (manager both_on_alert))
    as (_ & Htwice & Hreg).
  exact (conj H1 (conj Htwice (proj1 (Hreg H1)))).
Defined.

(** [send_to_unknown_is_noop] for an id that is not connected. *)
Lemma send_to_unknown_is_noop_witness :
  ¬ registered "ghost" (manager lobby)
  ∧ send_personal_message reliable test_alert "ghost" lobby = (Returned (), lobby).
Proof.
  assert (¬ registered "ghost" (manager lobby)) as H1.
  { apply (proj1 (bool_decide_eq_false _)). vm_compute. reflexivity. }
  exact (conj H1
    (proj1 (send_to_unknown_is_noop reliable lobby test_alert "ghost" H1))).
Defined.

(** * Further properties of the manager *)

(** ** Membership after [subscribe] and [unsubscribe] *)

Lemma subscribed_subscribe c ts self c' t :
  subscribed c' t (subscribe c ts self)
  ↔ subscribed c' t self ∨ (c' = c ∧ t ∈ ts).
Proof.
  unfold subscribed. rewrite subscribe_lookup.
  destruct (decide (t ∈ ts)) as [Hin|Hin].
  - rewrite bool_decide_eq_true_2 by done. cbn.
    rewrite elem_of_union, elem_of_singleton. tauto.
  - rewrite bool_decide_eq_false_2 by done. tauto.
Qed.

Lemma subscribed_unsubscribe c ts self c' t :
  subscribed c' t (unsubscribe c ts self)
  ↔ subscribed c' t self ∧ ¬ (c' = c ∧ t ∈ ts).
Proof.
  unfold subscribed. rewrite unsubscribe_lookup.
  destruct (decide (t ∈ ts)) as [Hin|Hin].
  - rewrite bool_decide_eq_true_2 by done. cbn.
    rewrite elem_of_difference, elem_of_singleton. tauto.
  - rewrite bool_decide_eq_false_2 by done. tauto.
Qed.

Lemma unsubscribe_twice c ts self :
  unsubscribe c ts (unsubscribe c ts self) = unsubscribe c ts self.
Proof.
  apply manager_eq; [done| |done].
  apply map_eq. intros t. rewrite !unsubscribe_lookup.
  destruct (bool_decide (t ∈ ts)); [|done].
  cbn. f_equal. apply set_eq. intros x.
  rewrite !elem_of_difference. tauto.
Qed.

(** X1: [subscribe] changes the index for its own client and the listed
    topics only: afterwards a client is in a bucket exactly when it was
    there before or it is the subscriber and the topic is listed; every
    listed topic has a bucket; the connections and the metadata are not
    touched. *)
Theorem subscribe_touches_only_its_client c ts self :
  (∀ c' t, subscribed c' t (subscribe c ts self)
           ↔ subscribed c' t self ∨ (c' = c ∧ t ∈ ts))
  ∧ (∀ t, t ∈ ts → is_Some (subscriptions (subscribe c ts self) !! t))
  ∧ dom (subscriptions self) ⊆ dom (subscriptions (subscribe c ts self))
  ∧ active_connections (subscribe c ts self) = active_connections self
  ∧ connection_metadata (subscribe c ts self) = connection_metadata self.
Proof.
  split; [intros; apply subscribed_subscribe|].
  split; [|split; [|done]].
  - intros t Hin. rewrite subscribe_lookup.
    rewrite bool_decide_eq_true_2 by done. eauto.
  - intros t [b Hb]%elem_of_dom. apply elem_of_dom.
    rewrite subscribe_lookup, Hb. destruct (bool_decide _); eauto.
Qed.

(** X2: [unsubscribe] removes its own client from the listed topics and
    nothing else; it is idempotent; a listed topic that had no bucket
    gets an empty one, and no bucket is ever dropped. *)
Theorem unsubscribe_removes_only_its_client c ts self :
  (∀ c' t, subscribed c' t (unsubscribe c ts self)
           ↔ subscribed c' t self ∧ ¬ (c' = c ∧ t ∈ ts))
  ∧ unsubscribe c ts (unsubscribe c ts self) = unsubscribe c ts self
  ∧ (∀ t, t ∈ ts → subscriptions self !! t = None →
          subscriptions (unsubscribe c ts self) !! t = Some ∅)
  ∧ dom (subscriptions self) ⊆ dom (subscriptions (unsubscribe c ts self)).
Proof.
  split; [intros; apply subscribed_unsubscribe|].
  split; [apply unsubscribe_twice|]. split.
  - intros t Hin Hnone. rewrite unsubscribe_lookup, Hnone.
    rewrite bool_decide_eq_true_2 by done. cbn. f_equal.
    apply set_eq. intros x. rewrite elem_of_difference, elem_of_empty. tauto.
  - intros t [b Hb]%elem_of_dom. apply elem_of_dom.
    rewrite unsubscribe_lookup, Hb. destruct (bool_decide _); eauto.
Qed.

(** X3: the later of a [subscribe] and an [unsubscribe] with the same
    client and topics wins.  After subscribe-then-unsubscribe the client
    is in none of the listed topics, after unsubscribe-then-subscribe it
    is in all of them; every other membership is as it was before both
    calls. *)
Theorem last_subscription_call_wins c ts self c' t :
  (subscribed c' t (unsubscribe c ts (subscribe c ts self))
   ↔ subscribed c' t self ∧ ¬ (c' = c ∧ t ∈ ts))
  ∧ (subscribed c' t (subscribe c ts (unsubscribe c ts self))
     ↔ subscribed c' t self ∨ (c' = c ∧ t ∈ ts)).
Proof.
  rewrite subscribed_unsubscribe, !subscribed_subscribe, subscribed_unsubscribe.
  destruct (decide (c' = c ∧ t ∈ ts)); tauto.
Qed.

(** X4: calls for different clients commute: the manager does not depend
    on the order in which the subscribe and unsubscribe frames of two
    different clients are handled. *)
Theorem subscription_calls_commute c1 ts1 c2 ts2 self :
  c1 ≠ c2 →
  subscribe c1 ts1 (subscribe c2 ts2 self)
    = subscribe c2 ts2 (subscribe c1 ts1 self)
  ∧ unsubscribe c1 ts1 (subscribe c2 ts2 self)
    = subscribe c2 ts2 (unsubscribe c1 ts1 self)
  ∧ unsubscribe c1 ts1 (unsubscribe c2 ts2 self)
    = unsubscribe c2 ts2 (unsubscribe c1 ts1 self).
Proof.
  intros Hne.
  split; [|split]; (apply manager_eq; [done| |done]); apply map_eq; intros t;
    rewrite ?subscribe_lookup, ?unsubscribe_lookup, ?subscribe_lookup;
    destruct (bool_decide (t ∈ ts1)), (bool_decide (t ∈ ts2)); try done;
    cbn; f_equal; apply set_eq; intros x;
    rewrite ?elem_of_difference, ?elem_of_union, ?elem_of_difference,
            ?elem_of_singleton;
    naive_solver.
Qed.

(** ** Who gets a broadcast *)

Lemma recipients_of_bucket self t bucket :
  t ≠ "" → subscriptions self !! t = Some bucket →
  recipients_of self (Some t) = bucket.
Proof.
  intros Hne Hb. unfold recipients_of. rewrite Hb.
  by destruct (String.eqb_spec t "").
Qed.

Lemma reached_sent net self message c ws :
  active_connections self !! c = Some ws →
  send_ok net ws message = true →
  reached net self message c = Some (frame_for c ws message).
Proof. intros Hc Hok. unfold reached. by rewrite Hc, Hok. Qed.

Lemma send_fails_raises net self message c :
  send_fails net self message c = true ↔ send_raises net self message c.
Proof.
  unfold send_fails, send_raises. split.
  - destruct (active_connections self !! c) as [ws|]; [|done].
    intros H%negb_true_iff. eauto.
  - intros (ws & -> & ->). done.
Qed.

Lemma reached_raises net self message c :
  send_raises net self message c → reached net self message c = None.
Proof. intros (ws & Hc & Hf). unfold reached. by rewrite Hc, Hf. Qed.

Lemma reached_unregistered net self message c :
  ¬ registered c self → reached net self message c = None.
Proof.
  intros Hc. destruct (reached net self message c) eqn:E; [|done].
  exfalso. eauto using reached_registered.
Qed.

(** X5: a connected client that subscribes to a topic gets exactly one
    copy of the next broadcast on that topic, provided its send goes
    through (the topic being a non-empty string). *)
Theorem subscribe_then_broadcast_delivers_once net w c ws ts t message :
  t ∈ ts →
  t ≠ "" →
  active_connections (manager w) !! c = Some ws →
  send_ok net ws message = true →
  deliveries_to c
    (outbox (broadcast net message (Some t) (step net w (Subscribe c ts))).2)
  = deliveries_to c (outbox w) ++ [frame_for c ws message].
Proof.
  intros Hin Hne Hc Hok. rewrite broadcast_deliveries.
  change (manager (step net w (Subscribe c ts)))
    with (subscribe c ts (manager w)).
  change (outbox (step net w (Subscribe c ts))) with (outbox w).
  pose proof (subscribe_lookup c ts (manager w) t) as Hb.
  rewrite bool_decide_eq_true_2 in Hb by done.
  rewrite (recipients_of_bucket _ _ _ Hne Hb).
  rewrite bool_decide_eq_true_2
    by (apply elem_of_union; right; by apply elem_of_singleton).
  by rewrite (reached_sent net (subscribe c ts (manager w)) message c ws Hc Hok).
Qed.

(** X6: after a client unsubscribes from a topic, a broadcast on that
    topic sends it nothing.  If the topic had no bucket before, the
    unsubscribe creates an empty one, and the broadcast, which would have
    gone to every connected client, now does nothing at all. *)
Theorem unsubscribe_then_broadcast_skips net w c ts t message :
  t ∈ ts →
  t ≠ "" →
  deliveries_to c
    (outbox (broadcast net message (Some t) (step net w (Unsubscribe c ts))).2)
  = deliveries_to c (outbox w)
  ∧ (subscriptions (manager w) !! t = None →
     broadcast net message (Some t) (step net w (Unsubscribe c ts))
     = (Returned (), step net w (Unsubscribe c ts))).
Proof.
  intros Hin Hne.
  change (manager (step net w (Unsubscribe c ts)))
    with (unsubscribe c ts (manager w)).
  pose proof (unsubscribe_lookup c ts (manager w) t) as Hb.
  rewrite bool_decide_eq_true_2 in Hb by done. split.
  - rewrite broadcast_deliveries.
    change (manager (step net w (Unsubscribe c ts)))
      with (unsubscribe c ts (manager w)).
    change (outbox (step net w (Unsubscribe c ts))) with (outbox w).
    rewrite (recipients_of_bucket _ _ _ Hne Hb).
    rewrite bool_decide_eq_false_2; [by rewrite app_nil_r|].
    rewrite elem_of_difference, elem_of_singleton. tauto.
  - intros Hnone. rewrite Hnone in Hb.
    assert (recipients_of (unsubscribe c ts (manager w)) (Some t) = ∅) as Hrec.
    { rewrite (recipients_of_bucket _ _ _ Hne Hb). apply set_eq. intros x.
      cbn. rewrite elem_of_difference, elem_of_empty. tauto. }
    rewrite broadcast_spec. cbn zeta.
    change (manager (step net w (Unsubscribe c ts)))
      with (unsubscribe c ts (manager w)).
    rewrite Hrec, elements_empty. cbn. by rewrite app_nil_r.
Qed.

(** X7: a broadcast without a message type, or with the empty string as
    type, ignores the subscriptions: every connected client whose send
    goes through gets exactly one copy, a client that is not connected or
    whose send raises gets nothing. *)
Theorem broadcast_to_everyone net w message message_type :
  message_type = None ∨ message_type = Some "" →
  (∀ c ws,
     active_connections (manager w) !! c = Some ws →
     send_ok net ws message = true →
     deliveries_to c (outbox (broadcast net message message_type w).2)
     = deliveries_to c (outbox w) ++ [frame_for c ws message])
  ∧ (∀ c,
       ¬ registered c (manager w) ∨ send_raises net (manager w) message c →
       deliveries_to c (outbox (broadcast net message message_type w).2)
       = deliveries_to c (outbox w)).
Proof.
  intros Hall.
  assert (recipients_of (manager w) message_type
          = dom (active_connections (manager w))) as Hrec
    by (by destruct Hall as [-> | ->]).
  split.
  - intros c ws Hc Hok. rewrite broadcast_deliveries, Hrec.
    rewrite bool_decide_eq_true_2 by (apply elem_of_dom; eauto).
    by rewrite (reached_sent net _ message c ws Hc Hok).
  - intros c Hc. rewrite broadcast_deliveries.
    assert (reached net (manager w) message c = None) as ->.
    { destruct Hc; eauto using reached_unregistered, reached_raises. }
    cbn. destruct (bool_decide _); by rewrite app_nil_r.
Qed.

(** ** Eviction *)

Lemma disconnect_active c self :
  active_connections (disconnect c self) = delete c (active_connections self).
Proof.
  unfold disconnect.
  destruct (active_connections self !! c) eqn:Hc; [done|].
  by rewrite delete_id.
Qed.

Lemma disconnect_other_registered c x self :
  x ≠ c → registered x self → registered x (disconnect c self).
Proof.
  unfold registered. rewrite disconnect_active, dom_delete_L.
  intros. apply elem_of_difference. split; [done|].
  by rewrite elem_of_singleton.
Qed.

Lemma evict_active l self c :
  active_connections (evict l self) !! c =
    if bool_decide (c ∈ l) then None else active_connections self !! c.
Proof.
  revert self. induction l as [|x l IH]; intros self.
  - by rewrite bool_decide_eq_false_2 by apply not_elem_of_nil.
  - change (evict (x :: l) self) with (evict l (disconnect x self)).
    rewrite IH, disconnect_active.
    destruct (decide (c ∈ l)) as [Hin|Hin].
    + rewrite !bool_decide_eq_true_2; [done| |done]. by apply list_elem_of_further.
    + rewrite (bool_decide_eq_false_2 (c ∈ l)) by done.
      destruct (decide (c = x)) as [->|Hne].
      * rewrite bool_decide_eq_true_2 by apply list_elem_of_here.
        apply lookup_delete_eq.
      * rewrite bool_decide_eq_false_2.
        -- by apply lookup_delete_ne.
        -- rewrite elem_of_cons. tauto.
Qed.

Lemma evict_subscriptions l self :
  NoDup l →
  (∀ x, x ∈ l → registered x self) →
  subscriptions (evict l self) =
    (λ bucket, bucket ∖ list_to_set l) <$> subscriptions self.
Proof.
  intros Hnd. revert self. induction Hnd as [|x l Hx Hnd IH]; intros self Hreg.
  - cbn. apply map_eq. intros t. rewrite lookup_fmap.
    destruct (subscriptions self !! t) as [b|]; [|done]. cbn. f_equal.
    apply set_eq. intros y. rewrite elem_of_difference, elem_of_empty. tauto.
  - change (evict (x :: l) self) with (evict l (disconnect x self)).
    rewrite IH.
    + rewrite disconnect_registered
        by (apply Hreg, list_elem_of_here).
      cbn [subscriptions]. apply map_eq. intros t. rewrite !lookup_fmap.
      destruct (subscriptions self !! t) as [b|]; [|done]. cbn. f_equal.
      apply set_eq. intros y.
      rewrite !elem_of_difference, elem_of_union, elem_of_singleton. tauto.
    + intros y Hy. apply disconnect_other_registered.
      * intros ->. done.
      * apply Hreg. by apply list_elem_of_further.
Qed.

Lemma elem_of_failing net self message (l : list string) c :
  c ∈ failing net self message l ↔ c ∈ l ∧ send_raises net self message c.
Proof.
  unfold failing. rewrite list_elem_of_filter, send_fails_raises. tauto.
Qed.

Lemma failing_registered net self message (l : list string) c :
  c ∈ failing net self message l → registered c self.
Proof.
  intros [_ (ws & Hc & _)]%elem_of_failing. apply elem_of_dom. eauto.
Qed.

Lemma broadcast_manager net message message_type w :
  manager (broadcast net message message_type w).2 =
    evict (failing net (manager w) message
             (elements (recipients_of (manager w) message_type)))
          (manager w).
Proof. by rewrite broadcast_spec. Qed.

(** X8: a broadcast evicts exactly the recipients whose send raised.
    Afterwards a client is registered exactly when it was registered
    before and is not such a recipient, the same holds for its place in
    every bucket, the survivors keep their sockets and no bucket is
    created or dropped. *)
Theorem broadcast_evicts_exactly_failures net w message message_type :
  (∀ c, registered c (manager (broadcast net message message_type w).2)
        ↔ registered c (manager w)
          ∧ ¬ (c ∈ recipients_of (manager w) message_type
               ∧ send_raises net (manager w) message c))
  ∧ (∀ c t, subscribed c t (manager (broadcast net message message_type w).2)
            ↔ subscribed c t (manager w)
              ∧ ¬ (c ∈ recipients_of (manager w) message_type
                   ∧ send_raises net (manager w) message c))
  ∧ (∀ c, registered c (manager (broadcast net message message_type w).2) →
          active_connections (manager (broadcast net message message_type w).2)
            !! c = active_connections (manager w) !! c)
  ∧ dom (subscriptions (manager (broadcast net message message_type w).2))
    = dom (subscriptions (manager w)).
Proof.
  rewrite broadcast_manager.
  set (l := failing net (manager w) message
              (elements (recipients_of (manager w) message_type))).
  assert (∀ c, c ∈ l ↔ c ∈ recipients_of (manager w) message_type
                       ∧ send_raises net (manager w) message c) as Hl.
  { intros c. unfold l. by rewrite elem_of_failing, elem_of_elements. }
  assert (subscriptions (evict l (manager w)) =
            (λ bucket, bucket ∖ list_to_set l) <$> subscriptions (manager w))
    as Hsub.
  { apply evict_subscriptions.
    - apply NoDup_filter, NoDup_elements.
    - intros x Hx. by apply failing_registered in Hx. }
  split; [|split; [|split]].
  - intros c. unfold registered. rewrite !elem_of_dom, evict_active, <- Hl.
    destruct (decide (c ∈ l)).
    + rewrite bool_decide_eq_true_2 by done. split; [by intros [? ?]|tauto].
    + rewrite bool_decide_eq_false_2 by done. tauto.
  - intros c t. unfold subscribed. rewrite Hsub, lookup_fmap, <- Hl.
    destruct (subscriptions (manager w) !! t) as [b|]; cbn.
    + rewrite elem_of_difference, elem_of_list_to_set. tauto.
    + rewrite elem_of_empty. tauto.
  - intros c. unfold registered. rewrite elem_of_dom, !evict_active.
    destruct (bool_decide (c ∈ l)); [by intros [? ?]|done].
  - by rewrite Hsub, dom_fmap_L.
Qed.

(** X9: when no send to a recipient raises, a broadcast only delivers:
    the manager is left exactly as it was. *)
Theorem broadcast_without_failures net w message message_type :
  (∀ c, c ∈ recipients_of (manager w) message_type →
        ¬ send_raises net (manager w) message c) →
  manager (broadcast net message message_type w).2 = manager w.
Proof.
  intros Hok. rewrite broadcast_manager.
  assert (failing net (manager w) message
            (elements (recipients_of (manager w) message_type)) = []) as ->;
    [|done].
  apply elem_of_nil_inv. intros c [Hc Hr]%elem_of_failing.
  apply (Hok c); [by apply elem_of_elements|done].
Qed.

(** ** [send_personal_message] *)

Lemma send_personal_message_spec net message c w :
  send_personal_message net message c w =
    match active_connections (manager w) !! c with
    | Some ws =>
        if send_ok net ws message
        then (Returned (),
              {| manager := manager w;
                 outbox := outbox w ++ [frame_for c ws message] |})
        else (Returned (),
              {| manager := disconnect c (manager w); outbox := outbox w |})
    | None => (Returned (), w)
    end.
Proof.
  unfold send_personal_message, mbind, Task_bind, get_manager.
  destruct (active_connections (manager w) !! c) as [ws|]; [|done].
  unfold try_except, send_json. by destruct (send_ok net ws message).
Qed.

(** X10: [send_personal_message] never raises.  If the send goes through
    it appends exactly that frame and leaves the manager alone; if the
    send raises nothing is appended and the client is disconnected: it is
    no longer registered and is in no bucket. *)
Theorem send_personal_message_outcomes net w message c ws :
  active_connections (manager w) !! c = Some ws →
  (send_personal_message net message c w).1 = Returned ()
  ∧ (send_ok net ws message = true →
     send_personal_message net message c w =
       (Returned (),
        {| manager := manager w;
           outbox := outbox w ++ [frame_for c ws message] |}))
  ∧ (send_ok net ws message = false →
     outbox (send_personal_message net message c w).2 = outbox w
     ∧ manager (send_personal_message net message c w).2
       = disconnect c (manager w)
     ∧ ¬ registered c (manager (send_personal_message net message c w).2)
     ∧ ∀ t, ¬ subscribed c t (manager (send_personal_message net message c w).2)).
Proof.
  intros Hc. rewrite send_personal_message_spec, Hc.
  destruct (send_ok net ws message); (split; [done|]); (split; [done|]);
    [done|]. intros _.
  cbn. split; [done|]. split; [done|].
  split; [apply disconnect_not_registered|].
  intros t. unfold subscribed.
  assert (registered c (manager w)) as Hr by (apply elem_of_dom; eauto).
  destruct (subscriptions (disconnect c (manager w)) !! t) as [b|] eqn:Hb; cbn.
  - eauto using disconnect_purges.
  - apply not_elem_of_empty.
Qed.

(** ** Invariants along arbitrary actions *)

Lemma no_orphans_alt self :
  no_orphans self ↔ ∀ c t, subscribed c t self → registered c self.
Proof.
  unfold no_orphans, subscribed, registered. rewrite map_Forall_lookup. split.
  - intros H c t Hc.
    destruct (subscriptions self !! t) as [b|] eqn:Hb; cbn in Hc.
    + by apply (H t b Hb).
    + by apply elem_of_empty in Hc.
  - intros H t b Hb c Hc. apply (H c t). by rewrite Hb.
Qed.

Lemma subscribed_disconnect c self c' t :
  subscribed c' t (disconnect c self) →
  subscribed c' t self ∧ (registered c self → c' ≠ c).
Proof.
  unfold subscribed, disconnect.
  destruct (active_connections self !! c) as [ws|] eqn:Hc.
  - cbn. rewrite lookup_fmap.
    destruct (subscriptions self !! t) as [b|]; cbn.
    + rewrite elem_of_difference, elem_of_singleton. tauto.
    + by intros ?%elem_of_empty.
  - intros H. split; [done|]. unfold registered.
    rewrite elem_of_dom, Hc. by intros [? ?].
Qed.

Lemma no_orphans_disconnect c self :
  no_orphans self → no_orphans (disconnect c self).
Proof.
  rewrite !no_orphans_alt. intros H c' t Hs.
  apply subscribed_disconnect in Hs as [Hs Hne].
  specialize (H c' t Hs).
  destruct (decide (registered c self)) as [Hr|Hr].
  - apply disconnect_other_registered; auto.
  - by rewrite disconnect_unregistered.
Qed.

Lemma no_orphans_evict l self :
  no_orphans self → no_orphans (evict l self).
Proof.
  revert self. induction l as [|x l IH]; intros self H; [done|].
  change (evict (x :: l) self) with (evict l (disconnect x self)).
  by apply IH, no_orphans_disconnect.
Qed.

Lemma send_personal_message_manager net message c w :
  manager (send_personal_message net message c w).2 = manager w
  ∨ manager (send_personal_message net message c w).2
    = disconnect c (manager w).
Proof.
  rewrite send_personal_message_spec.
  destruct (active_connections (manager w) !! c) as [ws|]; [|by left].
  destruct (send_ok net ws message); [by left | by right].
Qed.

Lemma step_unchanged_or_registered net w ws c t1 t2 :
  step net w (Register ws c t1 t2) = w
  ∨ (active_connections (manager (step net w (Register ws c t1 t2)))
       = <[c := ws]> (active_connections (manager w))
     ∧ subscriptions (manager (step net w (Register ws c t1 t2)))
       = subscriptions (manager w)
     ∧ connection_metadata (manager (step net w (Register ws c t1 t2)))
       = <[c := {| connected_at := t1; last_ping := t2 |}]>
           (connection_metadata (manager w))
     ∧ outbox (step net w (Register ws c t1 t2)) = outbox w).
Proof.
  rewrite step_register. destruct (accept_ok net ws); [by right | by left].
Qed.

Lemma no_orphans_perform net w a :
  match a with
  | Registry (Subscribe c _) => registered c (manager w)
  | _ => True
  end →
  no_orphans (manager w) → no_orphans (manager (perform net w a)).
Proof.
  intros Hg H. destruct a as [[ws c t1 t2|c|c ts|c ts]|message c|message mt].
  - cbn [perform].
    destruct (step_unchanged_or_registered net w ws c t1 t2)
      as [-> | (Ha & Hs & _)]; [done|].
    revert H. rewrite !no_orphans_alt. unfold subscribed, registered.
    rewrite Ha, Hs, dom_insert_L. intros H c' t Hc'.
    apply elem_of_union. right. eauto.
  - by apply no_orphans_disconnect.
  - revert H. rewrite !no_orphans_alt. intros H c' t.
    change (manager (perform net w (Registry (Subscribe c ts))))
      with (subscribe c ts (manager w)).
    rewrite subscribed_subscribe. intros [Hs | [-> _]]; [|done].
    by apply (H c' t).
  - revert H. rewrite !no_orphans_alt. intros H c' t.
    change (manager (perform net w (Registry (Unsubscribe c ts))))
      with (unsubscribe c ts (manager w)).
    rewrite subscribed_unsubscribe. intros [Hs _]. by apply (H c' t).
  - cbn [perform].
    destruct (send_personal_message_manager net message c w) as [-> | ->];
      [done | by apply no_orphans_disconnect].
  - cbn [perform]. rewrite broadcast_manager. by apply no_orphans_evict.
Qed.

Lemma subscribes_guarded_cons net a rest w :
  subscribes_guarded net (a :: rest) w = true →
  match a with
  | Registry (Subscribe c _) => registered c (manager w)
  | _ => True
  end ∧ subscribes_guarded net rest (perform net w a) = true.
Proof.
  cbn [subscribes_guarded]. intros [H1 H2]%andb_true_iff. split; [|done].
  destruct a as [[| |c ts|]| |]; try done.
  by apply bool_decide_eq_true_1 in H1.
Qed.

(** X11: the no-orphan invariant survives failures.  Along any sequence
    of registry calls, personal messages and broadcasts, with whatever
    sends raising, in which every subscribe names an id that is
    registered when it runs, no bucket ever holds an id without a
    connection. *)
Theorem no_orphans_along_actions net actions w n :
  no_orphans (manager w) →
  subscribes_guarded net actions w = true →
  no_orphans (manager (run_actions net (take n actions) w)).
Proof.
  revert w n. induction actions as [|a rest IH]; intros w n H Hg.
  - by rewrite take_nil.
  - destruct n as [|n]; [done|].
    apply subscribes_guarded_cons in Hg as [Ha Hrest].
    cbn [take]. unfold run_actions. cbn [foldl].
    apply IH; [|done]. by apply no_orphans_perform.
Qed.

Lemma metadata_consistent_disconnect c self :
  metadata_consistent self → metadata_consistent (disconnect c self).
Proof.
  unfold metadata_consistent, disconnect. intros H.
  destruct (active_connections self !! c); [|done].
  cbn. by rewrite !dom_delete_L, H.
Qed.

Lemma metadata_consistent_evict l self :
  metadata_consistent self → metadata_consistent (evict l self).
Proof.
  revert self. induction l as [|x l IH]; intros self H; [done|].
  change (evict (x :: l) self) with (evict l (disconnect x self)).
  by apply IH, metadata_consistent_disconnect.
Qed.

Lemma metadata_consistent_perform net w a :
  metadata_consistent (manager w) →
  metadata_consistent (manager (perform net w a)).
Proof.
  intros H. destruct a as [[ws c t1 t2|c|c ts|c ts]|message c|message mt].
  - cbn [perform].
    destruct (step_unchanged_or_registered net w ws c t1 t2)
      as [-> | (Ha & _ & Hm & _)]; [done|].
    unfold metadata_consistent in *. by rewrite Ha, Hm, !dom_insert_L, H.
  - by apply metadata_consistent_disconnect.
  - done.
  - done.
  - cbn [perform].
    destruct (send_personal_message_manager net message c w) as [-> | ->];
      [done | by apply metadata_consistent_disconnect].
  - cbn [perform]. rewrite broadcast_manager.
    by apply metadata_consistent_evict.
Qed.

(** X12: connections and metadata stay paired.  Along any sequence of
    registry calls, personal messages and broadcasts, whatever fails, the
    ids with metadata are exactly the ids with a connection. *)
Theorem metadata_follows_connections net actions w :
  metadata_consistent (manager w) →
  metadata_consistent (manager (run_actions net actions w)).
Proof.
  revert w. induction actions as [|a rest IH]; intros w H; [done|].
  unfold run_actions. cbn [foldl].
  by apply IH, metadata_consistent_perform.
Qed.

Lemma extends_refl w : extends w w.
Proof. by split. Qed.

Lemma extends_trans w1 w2 w3 : extends w1 w2 → extends w2 w3 → extends w1 w3.
Proof.
  intros [H1 H2] [H3 H4]. split; [by etrans | by etrans].
Qed.

Lemma dom_subscriptions_disconnect c self :
  dom (subscriptions (disconnect c self)) = dom (subscriptions self).
Proof.
  unfold disconnect. destruct (active_connections self !! c); [|done].
  cbn. apply dom_fmap_L.
Qed.

Lemma dom_subscriptions_evict l self :
  dom (subscriptions (evict l self)) = dom (subscriptions self).
Proof.
  revert self. induction l as [|x l IH]; intros self; [done|].
  change (evict (x :: l) self) with (evict l (disconnect x self)).
  by rewrite IH, dom_subscriptions_disconnect.
Qed.

Lemma extends_perform net w a : extends w (perform net w a).
Proof.
  destruct a as [[ws c t1 t2|c|c ts|c ts]|message c|message mt].
  - cbn [perform].
    destruct (step_unchanged_or_registered net w ws c t1 t2)
      as [-> | (_ & Hs & _ & Ho)]; [apply extends_refl|].
    split; [by rewrite Hs | by rewrite Ho].
  - split; [|done]. cbn. by rewrite dom_subscriptions_disconnect.
  - split; [|done].
    change (manager (perform net w (Registry (Subscribe c ts))))
      with (subscribe c ts (manager w)).
    intros t [b Hb]%elem_of_dom. apply elem_of_dom.
    rewrite subscribe_lookup, Hb. destruct (bool_decide _); eauto.
  - split; [|done].
    change (manager (perform net w (Registry (Unsubscribe c ts))))
      with (unsubscribe c ts (manager w)).
    intros t [b Hb]%elem_of_dom. apply elem_of_dom.
    rewrite unsubscribe_lookup, Hb. destruct (bool_decide _); eauto.
  - cbn [perform]. rewrite send_personal_message_spec.
    destruct (active_connections (manager w) !! c) as [ws|];
      [|apply extends_refl].
    destruct (send_ok net ws message); split; cbn; try done.
    + by apply prefix_app_r.
    + by rewrite dom_subscriptions_disconnect.
  - cbn [perform]. rewrite broadcast_spec. split; cbn.
    + by rewrite dom_subscriptions_evict.
    + by apply prefix_app_r.
Qed.

(** X13: nothing is taken back.  Along any sequence of registry calls,
    personal messages and broadcasts, a topic that has a bucket keeps it
    (buckets are emptied, never removed, not even when their last
    subscriber disconnects), and the frames already sent stay a prefix of
    the frames sent. *)
Theorem topics_and_frames_only_grow net actions w :
  dom (subscriptions (manager w))
    ⊆ dom (subscriptions (manager (run_actions net actions w)))
  ∧ outbox w `prefix_of` outbox (run_actions net actions w).
Proof.
  change (extends w (run_actions net actions w)).
  revert w. induction actions as [|a rest IH]; intros w;
    [apply extends_refl|].
  unfold run_actions. cbn [foldl].
  eapply extends_trans; [apply extends_perform | apply IH].
Qed.

Lemma shrinks_refl self : shrinks self self.
Proof. by repeat split. Qed.

Lemma shrinks_trans m1 m2 m3 : shrinks m1 m2 → shrinks m2 m3 → shrinks m1 m3.
Proof.
  intros (Ha & Hb & Hc) (Ha' & Hb' & Hc'). split; [|split].
  - intros c H3. destruct (Ha' c H3) as [H2 E2].
    destruct (Ha c H2) as [H1 E1]. split; [done|]. by rewrite E2.
  - intros c t H3. eauto.
  - by rewrite Hc'.
Qed.

Lemma shrinks_disconnect c self : shrinks self (disconnect c self).
Proof.
  split; [|split].
  - intros c'. unfold registered. rewrite disconnect_active, dom_delete_L.
    rewrite elem_of_difference, elem_of_singleton. intros [H Hne].
    split; [done|]. by rewrite lookup_delete_ne.
  - intros c' t H. by apply subscribed_disconnect in H as [H _].
  - apply dom_subscriptions_disconnect.
Qed.

Lemma shrinks_evict l self : shrinks self (evict l self).
Proof.
  revert self. induction l as [|x l IH]; intros self; [apply shrinks_refl|].
  change (evict (x :: l) self) with (evict l (disconnect x self)).
  eapply shrinks_trans; [apply shrinks_disconnect | apply IH].
Qed.

Lemma shrinks_perform net w a :
  sends_only a = true → shrinks (manager w) (manager (perform net w a)).
Proof.
  destruct a as [op|message c|message mt]; [done| |]; intros _; cbn [perform].
  - destruct (send_personal_message_manager net message c w) as [-> | ->];
      [apply shrinks_refl | apply shrinks_disconnect].
  - rewrite broadcast_manager. apply shrinks_evict.
Qed.

Lemma shrinks_run net actions w :
  forallb sends_only actions = true →
  shrinks (manager w) (manager (run_actions net actions w)).
Proof.
  revert w. induction actions as [|a rest IH]; intros w H;
    [apply shrinks_refl|].
  cbn in H. apply andb_true_iff in H as [Ha Hrest].
  unfold run_actions. cbn [foldl].
  eapply shrinks_trans; [by apply shrinks_perform | by apply IH].
Qed.

(** X14: sending never adds anything to the registry.  After any sequence
    of personal messages and broadcasts, every registered client was
    registered before and has the socket it had, every subscription
    existed before, and the set of topics is the same: the only effect
    sends can have on the manager is to evict clients. *)
Theorem sending_only_evicts net actions w :
  forallb sends_only actions = true →
  (∀ c, registered c (manager (run_actions net actions w)) →
        registered c (manager w)
        ∧ active_connections (manager (run_actions net actions w)) !! c
          = active_connections (manager w) !! c)
  ∧ (∀ c t, subscribed c t (manager (run_actions net actions w)) →
            subscribed c t (manager w))
  ∧ dom (subscriptions (manager (run_actions net actions w)))
    = dom (subscriptions (manager w)).
Proof.
  intros Hsends.
  destruct (shrinks_run net actions w Hsends) as (Hreg & Hsub & Hdom).
  split; [exact Hreg|]. split; [exact Hsub | exact Hdom].
Qed.

(** ** The metrics loop as a sequence of personal messages *)

Lemma send_personal_message_returns net message c w :
  (send_personal_message net message c w).1 = Returned ().
Proof.
  rewrite send_personal_message_spec.
  destruct (active_connections (manager w) !! c) as [ws|]; [|done].
  by destruct (send_ok net ws message).
Qed.

Lemma send_metrics_updates_cons net tick later c w :
  send_metrics_updates net (tick :: later) c w =
    match active_connections (manager w) !! c with
    | Some _ =>
        send_metrics_updates net later c
          (send_personal_message net (metrics_message tick) c w).2
    | None => (Returned Stopped, w)
    end.
Proof.
  cbn [send_metrics_updates]. unfold mbind at 1, Task_bind at 1, get_manager.
  destruct (active_connections (manager w) !! c) as [ws|]; [|done].
  unfold mbind at 1, Task_bind at 1, try_except.
  unfold mbind at 1, Task_bind at 1. rewrite get_live_metrics_spec.
  unfold mbind at 1, Task_bind at 1.
  fold (metrics_message tick).
  pose proof (send_personal_message_returns net (metrics_message tick) c w) as H.
  destruct (send_personal_message net (metrics_message tick) c w) as [o w1].
  cbn [fst] in H. subst o. cbn [snd].
  by unfold sleep, mbind, Task_bind, mret, Task_ret.
Qed.

Lemma send_metrics_updates_actions net ticks c w :
  ∃ n, (send_metrics_updates net ticks c w).2 =
         run_actions net
           ((λ tick, SendTo (metrics_message tick) c) <$> take n ticks) w.
Proof.
  revert w. induction ticks as [|tick later IH]; intros w.
  - by exists 0%nat.
  - rewrite send_metrics_updates_cons.
    destruct (active_connections (manager w) !! c) as [ws|]; [|by exists 0%nat].
    destruct (IH (send_personal_message net (metrics_message tick) c w).2)
      as [n Hn].
    exists (S n). by rewrite Hn.
Qed.

Lemma sends_only_fmap {A} (f : A → Action) (l : list A) :
  (∀ x, sends_only (f x) = true) → forallb sends_only (f <$> l) = true.
Proof. intros H. induction l as [|x l IH]; [done|]. cbn. by rewrite H, IH. Qed.

Lemma no_orphans_run_sends net actions w :
  forallb sends_only actions = true →
  no_orphans (manager w) → no_orphans (manager (run_actions net actions w)).
Proof.
  revert w. induction actions as [|a rest IH]; intros w Hs H; [done|].
  cbn in Hs. apply andb_true_iff in Hs as [Ha Hrest].
  unfold run_actions. cbn [foldl]. apply IH; [done|].
  apply no_orphans_perform; [|done]. by destruct a as [op| |].
Qed.

Lemma metadata_consistent_run net actions w :
  metadata_consistent (manager w) →
  metadata_consistent (manager (run_actions net actions w)).
Proof.
  revert w. induction actions as [|a rest IH]; intros w H; [done|].
  unfold run_actions. cbn [foldl].
  by apply IH, metadata_consistent_perform.
Qed.

(** X15: a failed send ends the metrics loop.  If the first frame of the
    loop cannot be sent, the client is disconnected without any frame
    being recorded, and the loop leaves through its condition at the
    next iteration, whatever the later ticks are.  For a client that is
    not registered the loop stops at once and changes nothing. *)
Theorem pump_stops_after_failed_send net w c ws tick next later :
  active_connections (manager w) !! c = Some ws →
  send_ok net ws (metrics_message tick) = false →
  send_metrics_updates net (tick :: next :: later) c w =
    (Returned Stopped,
     {| manager := disconnect c (manager w); outbox := outbox w |})
  ∧ ∀ w', ¬ registered c (manager w') →
          send_metrics_updates net (next :: later) c w' = (Returned Stopped, w').
Proof.
  intros Hc Hfail.
  assert (∀ w', ¬ registered c (manager w') →
                send_metrics_updates net (next :: later) c w'
                = (Returned Stopped, w')) as Hstop.
  { intros w' Hw'. rewrite send_metrics_updates_cons.
    apply not_elem_of_dom in Hw'. by rewrite Hw'. }
  split; [|done].
  rewrite send_metrics_updates_cons, Hc.
  rewrite send_personal_message_spec, Hc, Hfail. cbn [snd].
  apply Hstop. cbn. apply disconnect_not_registered.
Qed.

(** X16: the metrics loop talks to its own client only.  Whatever the
    network does, the frames it appends are all [metrics] frames for its
    client, at most one per tick; no other client gets a frame; and the
    manager is either untouched or has lost exactly this client. *)
Theorem pump_serves_only_its_client net ticks c w :
  ∃ sent,
    outbox (send_metrics_updates net ticks c w).2 = outbox w ++ sent
    ∧ Forall (λ d, to d = c ∧ msg_type (frame d) = "metrics") sent
    ∧ (length sent ≤ length ticks)%nat
    ∧ (manager (send_metrics_updates net ticks c w).2 = manager w
       ∨ manager (send_metrics_updates net ticks c w).2
         = disconnect c (manager w)).
Proof.
  revert w. induction ticks as [|tick later IH]; intros w.
  - exists []. cbn. rewrite app_nil_r. repeat split; auto.
  - rewrite send_metrics_updates_cons.
    destruct (active_connections (manager w) !! c) as [ws|] eqn:Hc.
    + rewrite send_personal_message_spec, Hc.
      destruct (send_ok net ws (metrics_message tick)); cbn [snd].
      * destruct (IH {| manager := manager w;
                        outbox := outbox w
                                  ++ [frame_for c ws (metrics_message tick)] |})
          as (sent & Ho & Hall & Hlen & Hm).
        exists (frame_for c ws (metrics_message tick) :: sent).
        cbn in Ho, Hm. rewrite Ho, <- app_assoc.
        split; [done|]. split; [by constructor|]. split; [cbn; lia | done].
      * destruct (IH {| manager := disconnect c (manager w);
                        outbox := outbox w |})
          as (sent & Ho & Hall & Hlen & Hm).
        exists sent. cbn in Ho, Hm. split; [done|]. split; [done|].
        split; [cbn; lia|]. right.
        destruct Hm as [-> | ->]; [done|].
        apply disconnect_unregistered, disconnect_not_registered.
    + exists []. cbn. rewrite app_nil_r. repeat split; auto. lia.
Qed.

(** ** The monitor as a sequence of broadcasts *)

Lemma check_milestones_effect net daily_revenue now todo w :
  check_milestones net daily_revenue now todo w =
    match find (in_band daily_revenue) todo with
    | Some amount =>
        (Returned (Some amount),
         (broadcast net (milestone_message amount now) (Some "alert") w).2)
    | None => (Returned None, w)
    end.
Proof.
  induction todo as [|milestone rest IH]; [done|].
  cbn [check_milestones find].
  destruct (in_band daily_revenue milestone); [|done].
  unfold mbind, Task_bind, broadcast_revenue_milestone.
  fold (milestone_message milestone now).
  pose proof (broadcast_returns net (milestone_message milestone now)
                (Some "alert") w) as H.
  destruct (broadcast net (milestone_message milestone now) (Some "alert") w)
    as [o w']. cbn [fst] in H. by subst o.
Qed.

Lemma monitor_iteration_effect net tick w :
  monitor_iteration net tick w =
    (Returned (milestone_due tick),
     match milestone_due tick with
     | Some amount =>
         (broadcast net (milestone_message amount (monitor_time tick))
            (Some "alert") w).2
     | None => w
     end).
Proof.
  unfold monitor_iteration, milestone_due.
  destruct (revenue_query tick) as [| |column]; [done..|].
  unfold try_except, mbind at 1, Task_bind at 1. cbn [execute_one].
  unfold mret at 1, Task_ret at 1, mbind at 1, Task_bind at 1. cbn [subscript].
  unfold mret at 1, Task_ret at 1, mbind at 1, Task_bind at 1.
  rewrite check_milestones_effect.
  by destruct (find (in_band (float64 (default 0%Q column))) milestones).
Qed.

Lemma monitor_iteration_action net tick w :
  (monitor_iteration net tick w).2 =
    run_actions net (option_list (monitor_action tick)) w.
Proof.
  rewrite monitor_iteration_effect. unfold monitor_action. cbn [snd].
  by destruct (milestone_due tick).
Qed.

Lemma run_actions_app net l1 l2 w :
  run_actions net (l1 ++ l2) w = run_actions net l2 (run_actions net l1 w).
Proof. apply foldl_app. Qed.

Lemma bind_mret_world {A B} (t : Task A) (f : A → B) w :
  ((t ≫= λ a, mret (f a)) w).2 = (t w).2.
Proof. unfold mbind, Task_bind. by destruct (t w) as [[a|e] w']. Qed.

Lemma monitor_business_metrics_actions net ticks w :
  (monitor_business_metrics net ticks w).2 =
    run_actions net (omap monitor_action ticks) w.
Proof.
  revert w. induction ticks as [|tick later IH]; intros w; [done|].
  cbn [monitor_business_metrics].
  rewrite (bind_returned _ _ w (milestone_due tick)
             (monitor_iteration net tick w).2)
    by (by rewrite monitor_iteration_effect).
  rewrite bind_mret_world, IH, monitor_iteration_action.
  rewrite <- run_actions_app. f_equal.
  cbn [omap list_omap]. by destruct (monitor_action tick).
Qed.

Lemma sends_only_monitor ticks :
  forallb sends_only (omap monitor_action ticks) = true.
Proof.
  induction ticks as [|tick later IH]; [done|]. cbn.
  unfold monitor_action at 1. by destruct (milestone_due tick).
Qed.

(** C2 as the code has it: the monitor keeps no memory between ticks.
    A run is exactly the sequence of broadcasts, on the topic ["alert"],
    of the milestones that are due, and what is due on a tick depends on
    that tick's revenue alone: the milestone [m] of the list with
    [m <= revenue < m * 1.1], revenue and product being binary64 numbers
    (at most one, the bands do not overlap), and nothing when there is
    none.  The products for 25000, 50000 and 100000 round to just above
    27500, 55000 and 110000, so these revenues are still inside the band.
    A milestone therefore fires again on every tick on which the revenue
    is still inside its band: on the revenues 24000, 26000, 26500, 51000
    the monitor makes three broadcasts, 25000 at ticks 2 and 3 and 50000
    at tick 4. *)
Theorem milestones_level_triggered :
  (∀ net ticks w,
     monitor_business_metrics net ticks w =
       (Returned (milestone_due <$> ticks),
        run_actions net (omap monitor_action ticks) w))
  ∧ (∀ decimal milestone,
       milestone_due {| revenue_query := Row (Some decimal);
                        monitor_time := 0 |} = Some milestone
       ↔ milestone ∈ milestones
         ∧ (inject_Z milestone <= float64 decimal
            ∧ float64 decimal < times_1_1 milestone)%Q)
  ∧ (times_1_1 25000 == 27500 + (1 # 274877906944)
     ∧ times_1_1 50000 == 55000 + (1 # 137438953472)
     ∧ times_1_1 100000 == 110000 + (1 # 68719476736)
     ∧ times_1_1 250000 == 275000
     ∧ times_1_1 500000 == 550000)%Q
  ∧ (∀ net w,
       monitor_business_metrics net
         (revenue_tick <$> [24000; 26000; 26500; 51000]%Z) w =
         (Returned [None; Some 25000%Z; Some 25000%Z; Some 50000%Z],
          run_actions net
            [Broadcast (milestone_message 25000 0) (Some "alert");
             Broadcast (milestone_message 25000 0) (Some "alert");
             Broadcast (milestone_message 50000 0) (Some "alert")] w)).
Proof.
  assert (∀ net ticks w,
            monitor_business_metrics net ticks w =
              (Returned (milestone_due <$> ticks),
               run_actions net (omap monitor_action ticks) w)) as Hrun.
  { intros net ticks w.
    pose proof (monitor_business_metrics_spec net ticks w) as H1.
    pose proof (monitor_business_metrics_actions net ticks w) as H2.
    destruct (monitor_business_metrics net ticks w) as [o w'].
    cbn [fst snd] in *. by subst. }
  split; [exact Hrun|]. split; [|split].
  - intros decimal milestone.
    change (milestone_due _)
      with (find (in_band (float64 decimal)) milestones).
    by rewrite find_in_band, in_band_spec.
  - destruct times_1_1_table as (-> & -> & -> & -> & ->).
    repeat split; vm_compute; reflexivity.
  - intros net w. rewrite Hrun.
    assert (milestone_due <$> (revenue_tick <$> [24000; 26000; 26500; 51000]%Z)
            = [None; Some 25000%Z; Some 25000%Z; Some 50000%Z]) as ->
      by (vm_compute; reflexivity).
    assert (omap monitor_action
              (revenue_tick <$> [24000; 26000; 26500; 51000]%Z)
            = [Broadcast (milestone_message 25000 0) (Some "alert");
               Broadcast (milestone_message 25000 0) (Some "alert");
               Broadcast (milestone_message 50000 0) (Some "alert")]) as ->
      by (vm_compute; reflexivity).
    reflexivity.
Qed.

(** X17: what one iteration of the monitor does to the world.  It never
    raises.  When the query raises, returns no row, or the revenue (NULL
    counting as 0) lies in no band, nothing is sent and nothing changes;
    otherwise the effect is exactly one broadcast, on the topic
    ["alert"], of the alert carrying the milestone.  The bands are those
    of the binary64 comparison: a revenue of exactly 27500, 55000 or
    110000 is still inside the band below it, 275000 and 550000 are
    outside. *)
Theorem monitor_iteration_is_one_broadcast net tick w :
  (monitor_iteration net tick w).1 = Returned (milestone_due tick)
  ∧ (milestone_due tick = None → (monitor_iteration net tick w).2 = w)
  ∧ (∀ amount, milestone_due tick = Some amount →
       (monitor_iteration net tick w).2 =
         (broadcast net (milestone_message amount (monitor_time tick))
            (Some "alert") w).2)
  ∧ (revenue_query tick = QueryRaises ∨ revenue_query tick = NoRow
     ∨ revenue_query tick = Row None →
     milestone_due tick = None)
  ∧ milestone_due <$>
      (revenue_tick <$> [27500; 55000; 110000; 275000; 550000]%Z)
    = [Some 25000%Z; Some 50000%Z; Some 100000%Z; None; None].
Proof.
  rewrite monitor_iteration_effect. split; [done|].
  split; [|split; [|split]].
  - by intros ->.
  - by intros amount ->.
  - unfold milestone_due. intros [-> | [-> | ->]]; [done..|].
    vm_compute. reflexivity.
  - vm_compute. reflexivity.
Qed.

(** X18: the two background loops keep the registry sound.  Whatever the
    database and the network do, a run of the metrics loop or of the
    monitor registers nobody and subscribes nobody, keeps the set of
    topics, and preserves both invariants of the manager: no bucket
    holds an id without a connection, and metadata and connections stay
    paired. *)
Theorem background_loops_only_evict net w :
  (∀ ticks c,
     shrinks (manager w) (manager (send_metrics_updates net ticks c w).2)
     ∧ (no_orphans (manager w) →
        no_orphans (manager (send_metrics_updates net ticks c w).2))
     ∧ (metadata_consistent (manager w) →
        metadata_consistent (manager (send_metrics_updates net ticks c w).2)))
  ∧ (∀ ticks,
       shrinks (manager w) (manager (monitor_business_metrics net ticks w).2)
       ∧ (no_orphans (manager w) →
          no_orphans (manager (monitor_business_metrics net ticks w).2))
       ∧ (metadata_consistent (manager w) →
          metadata_consistent
            (manager (monitor_business_metrics net ticks w).2))).
Proof.
  split.
  - intros ticks c.
    destruct (send_metrics_updates_actions net ticks c w) as [n ->].
    assert (forallb sends_only
              ((λ tick, SendTo (metrics_message tick) c) <$> take n ticks)
            = true) as Hs by (by apply sends_only_fmap).
    split; [by apply shrinks_run|].
    split; [by apply no_orphans_run_sends | apply metadata_consistent_run].
  - intros ticks. rewrite monitor_business_metrics_actions.
    pose proof (sends_only_monitor ticks) as Hs.
    split; [by apply shrinks_run|].
    split; [by apply no_orphans_run_sends | apply metadata_consistent_run].
Qed.

(** ** Connecting and leaving *)

(** X19: connecting and then disconnecting a fresh id is a round trip.
    If the handshake succeeds and the id had no connection, no metadata
    and no subscription, [disconnect] after [connect] gives back the
    manager as it was, and no frame has been sent. *)
Theorem connect_then_disconnect_restores net w ws c t1 t2 :
  accept_ok net ws = true →
  ¬ registered c (manager w) →
  connection_metadata (manager w) !! c = None →
  (∀ t, ¬ subscribed c t (manager w)) →
  (connect net ws c t1 t2 w).1 = Returned ()
  ∧ registered c (manager (connect net ws c t1 t2 w).2)
  ∧ disconnect c (manager (connect net ws c t1 t2 w).2) = manager w
  ∧ outbox (connect net ws c t1 t2 w).2 = outbox w.
Proof.
  intros Hok Hc Hm Hs. unfold connect, accept, mbind, Task_bind.
  rewrite Hok. cbn. split; [done|]. split.
  { unfold registered. cbn. rewrite dom_insert_L.
    apply elem_of_union. left. by apply elem_of_singleton. }
  split; [|done]. unfold disconnect. cbn. rewrite lookup_insert_eq.
  apply manager_eq; cbn.
  - rewrite delete_insert_eq. apply delete_id. by apply not_elem_of_dom.
  - apply map_eq. intros t. rewrite lookup_fmap.
    specialize (Hs t). unfold subscribed in Hs.
    destruct (subscriptions (manager w) !! t) as [b|]; [|done]. cbn in *.
    f_equal. apply set_eq. intros x.
    rewrite elem_of_difference, elem_of_singleton. split; [tauto|].
    intros Hx. split; [done|]. by intros ->.
  - rewrite delete_insert_eq. by apply delete_id.
Qed.

(** ** The administrative routes *)

Lemma evict_size l self :
  NoDup l →
  (∀ x, x ∈ l → registered x self) →
  (size (active_connections (evict l self)) + length l)%nat
  = size (active_connections self).
Proof.
  intros Hnd. revert self. induction Hnd as [|x l Hx Hnd IH]; intros self Hreg.
  - cbn. lia.
  - change (evict (x :: l) self) with (evict l (disconnect x self)).
    assert (registered x self) as Hr by apply Hreg, list_elem_of_here.
    pose proof Hr as [ws Hws]%elem_of_dom.
    assert (size (active_connections self)
            = S (size (active_connections (disconnect x self)))) as ->.
    { rewrite disconnect_active.
      rewrite <- (insert_delete_id (active_connections self) x ws Hws) at 1.
      apply map_size_insert_None, lookup_delete_eq. }
    cbn [length]. rewrite <- (IH (disconnect x self)); [lia|].
    intros y Hy. apply disconnect_other_registered.
    + by intros ->.
    + apply Hreg. by apply list_elem_of_further.
Qed.

Lemma delivered_all_length net self message (l : list string) :
  (∀ c, c ∈ l → is_Some (reached net self message c)) →
  length (delivered net self message l) = length l.
Proof.
  induction l as [|x l IH]; intros H; [done|].
  rewrite delivered_cons.
  destruct (H x) as [d Hd]; [apply list_elem_of_here|].
  rewrite Hd. cbn. f_equal. apply IH. intros c Hc. apply H.
  by apply list_elem_of_further.
Qed.

(** X20: [test_broadcast] reports the connections that are left after
    the broadcast.  The number it returns plus the number of clients
    evicted because their send raised is the number of connections
    before the call; when every send goes through it is that number, and
    exactly one frame per connected client has been sent. *)
Theorem test_broadcast_counts_survivors net now w :
  ∃ reply,
    (test_broadcast net now w).1 = Returned reply
    ∧ reply_status reply = "success"
    ∧ connected_clients reply
      = size (active_connections (manager (test_broadcast net now w).2))
    ∧ (connected_clients reply
       + length (failing net (manager w)
                   {| msg_type := "alert"; msg_data := TestAlert;
                      msg_timestamp := now |}
                   (elements (dom (active_connections (manager w))))))%nat
      = size (active_connections (manager w))
    ∧ ((∀ c ws, active_connections (manager w) !! c = Some ws →
                send_ok net ws {| msg_type := "alert"; msg_data := TestAlert;
                                  msg_timestamp := now |} = true) →
       connected_clients reply = size (active_connections (manager w))
       ∧ length (outbox (test_broadcast net now w).2)
         = (length (outbox w) + size (active_connections (manager w)))%nat).
Proof.
  set (message := {| msg_type := "alert"; msg_data := TestAlert;
                     msg_timestamp := now |}).
  unfold test_broadcast. fold message.
  unfold mbind, Task_bind, get_manager. rewrite broadcast_spec. cbn.
  set (l := failing net (manager w) message
              (elements (dom (active_connections (manager w))))).
  eexists. split; [done|]. cbn. split; [done|]. split; [done|].
  assert ((size (active_connections (evict l (manager w))) + length l)%nat
          = size (active_connections (manager w))) as Hsize.
  { apply evict_size.
    - apply NoDup_filter, NoDup_elements.
    - intros x Hx. by apply failing_registered in Hx. }
  split; [done|]. intros Hok.
  assert (l = []) as Hl.
  { apply elem_of_nil_inv. intros c [_ (ws & Hc & Hf)]%elem_of_failing.
    rewrite (Hok c ws Hc) in Hf. done. }
  clearbody l. subst l. cbn in Hsize. cbn [evict foldl]. split; [lia|].
  rewrite length_app. f_equal.
  rewrite delivered_all_length.
  - rewrite <- size_dom. done.
  - intros c [ws Hc]%elem_of_elements%elem_of_dom.
    rewrite (reached_sent net _ message c ws Hc (Hok c ws Hc)). eauto.
Qed.

(** X21: [get_connections] only reads.  It returns normally and leaves
    the world as it is; the total is the number of listed clients, which
    are the registered ones; every topic that has a bucket is listed with
    the size of its bucket, so a topic whose bucket is empty is listed
    with 0, and this is what happens to a topic whose only subscriber
    disconnects. *)
Theorem get_connections_report w :
  ∃ info,
    get_connections w = (Returned info, w)
    ∧ total_connections info = size (clients info)
    ∧ (∀ c, c ∈ clients info ↔ registered c (manager w))
    ∧ (∀ t n, subscription_counts info !! t = Some n
              ↔ ∃ bucket, subscriptions (manager w) !! t = Some bucket
                          ∧ size bucket = n)
    ∧ (∀ c t,
         registered c (manager w) →
         subscriptions (manager w) !! t = Some {[c]} →
         ∃ info',
           get_connections
             {| manager := disconnect c (manager w); outbox := outbox w |}
           = (Returned info',
              {| manager := disconnect c (manager w); outbox := outbox w |})
           ∧ subscription_counts info' !! t = Some 0%nat
           ∧ total_connections info' = pred (total_connections info)).
Proof.
  eexists. split; [reflexivity|]. cbn.
  split; [by rewrite size_dom|]. split; [done|]. split.
  - intros t n. rewrite lookup_fmap.
    destruct (subscriptions (manager w) !! t) as [b|]; cbn.
    + split; [intros [= <-]; eauto | by intros (b' & [= <-] & <-)].
    + split; [done | by intros (b' & ? & _)].
  - intros c t Hc Ht. eexists. split; [reflexivity|]. cbn.
    rewrite disconnect_registered by done. cbn. split.
    + rewrite !lookup_fmap, Ht. cbn. f_equal.
      assert (({[c]} ∖ {[c]} : gset string) = ∅) as ->; [|apply size_empty].
      apply set_eq. intros x.
      rewrite elem_of_difference, elem_of_empty. tauto.
    + apply map_size_delete_Some. by apply elem_of_dom.
Qed.

(** ** The endpoint as a sequence of actions *)

Lemma call_with_types_subscribe net c data w :
  call_with_types (subscribe c) (default (Strings []) (types data)) w =
    (match types data with
     | Some (RaisesAfter _) => Raised TypeError
     | _ => Returned ()
     end,
     run_actions net [Registry (Subscribe c (topics_read (types data)))] w).
Proof. by destruct (types data) as [[ts|ts]|]. Qed.

Lemma call_with_types_unsubscribe net c data w :
  call_with_types (unsubscribe c) (default (Strings []) (types data)) w =
    (match types data with
     | Some (RaisesAfter _) => Raised TypeError
     | _ => Returned ()
     end,
     run_actions net [Registry (Unsubscribe c (topics_read (types data)))] w).
Proof. by destruct (types data) as [[ts|ts]|]. Qed.

Lemma handle_frame_action net c data now w :
  handle_frame net c (JsonObject data) now w =
    (match frame_raises data with
     | Some e => Raised e
     | None => Returned ()
     end,
     run_actions net (option_list (frame_action c data now)) w).
Proof.
  unfold handle_frame, frame_action, frame_raises.
  destruct (decide (action data = Some "subscribe")) as [Hs|Hs].
  { rewrite decide_True by tauto.
    rewrite (call_with_types_subscribe net). by destruct (types data) as [[|]|]. }
  destruct (decide (action data = Some "unsubscribe")) as [Hu|Hu].
  { rewrite decide_True by tauto.
    rewrite (call_with_types_unsubscribe net).
    by destruct (types data) as [[|]|]. }
  rewrite (decide_False (P := action data = Some "subscribe"
                              ∨ action data = Some "unsubscribe")) by tauto.
  destruct (decide (action data = Some "ping")); [|done].
  cbn. fold (pong now).
  pose proof (send_personal_message_returns net (pong now) c w) as H.
  destruct (send_personal_message net (pong now) c w) as [o w']. cbn in *.
  by subst o.
Qed.

Lemma receive_loop_actions net inbound c w :
  receive_loop net inbound c w =
    (match first_raise inbound with
     | Some e => Raised e
     | None => Returned Serving
     end,
     run_actions net (loop_actions c inbound) w).
Proof.
  revert w. induction inbound as [|[[data| |e] now] later IH]; intros w.
  - done.
  - cbn [receive_loop first_raise loop_actions receive_json].
    unfold mbind at 1, Task_bind at 1, mret at 1, Task_ret at 1.
    unfold mbind at 1, Task_bind at 1. rewrite handle_frame_action.
    destruct (frame_raises data) as [e|].
    + by rewrite app_nil_r.
    + by rewrite IH, run_actions_app.
  - done.
  - done.
Qed.

Lemma websocket_endpoint_actions net ws c t1 t2 t3 inbound w :
  accept_ok net ws = true →
  websocket_endpoint net ws c t1 t2 t3 inbound w =
    (Returned (match first_raise inbound with
               | Some _ => Closed
               | None => Serving
               end),
     run_actions net (endpoint_actions ws c t1 t2 t3 inbound) w).
Proof.
  intros Hok. unfold websocket_endpoint, endpoint_actions.
  fold (greeting c t3).
  unfold mbind at 1, Task_bind at 1, connect, accept. rewrite Hok.
  unfold mbind at 1, Task_bind at 1, mret at 1, Task_ret at 1.
  unfold call at 1. unfold mbind at 1, Task_bind at 1.
  pose proof (send_personal_message_returns net (greeting c t3) c
    {| manager :=
         {| active_connections :=
              <[c:=ws]> (active_connections (manager w));
            subscriptions := subscriptions (manager w);
            connection_metadata :=
              <[c:={| connected_at := t1; last_ping := t2 |}]>
                (connection_metadata (manager w)) |};
       outbox := outbox w |}) as H.
  cbn [manager outbox] in *.
  destruct (send_personal_message net (greeting c t3) c _) as [o w2] eqn:E.
  cbn [fst] in H. subst o.
  unfold try_except. rewrite receive_loop_actions.
  rewrite !run_actions_app.
  assert (run_actions net
            [Registry (Register ws c t1 t2); SendTo (greeting c t3) c] w = w2)
    as ->.
  { unfold run_actions. cbn [foldl perform]. rewrite step_register, Hok.
    by rewrite E. }
  destruct (first_raise inbound) as [e|]; [|done].
  by destruct e.
Qed.

Lemma concerns_endpoint ws c t1 t2 t3 inbound :
  forallb (concerns c) (endpoint_actions ws c t1 t2 t3 inbound) = true.
Proof.
  unfold endpoint_actions. rewrite !forallb_app. cbn.
  rewrite !bool_decide_eq_true_2 by done. cbn.
  apply andb_true_iff. split.
  - induction inbound as [|[[data| |e] now] later IH]; [done| |done..].
    cbn [loop_actions]. rewrite forallb_app.
    apply andb_true_iff. split.
    + unfold frame_action. repeat case_decide; cbn;
        rewrite ?bool_decide_eq_true_2; done.
    + by destruct (frame_raises data).
  - destruct (first_raise inbound); [|done]. cbn.
    by rewrite bool_decide_eq_true_2.
Qed.

Lemma websocket_endpoint_refused net ws c t1 t2 t3 inbound w :
  accept_ok net ws = false →
  websocket_endpoint net ws c t1 t2 t3 inbound w = (Raised AcceptFailed, w).
Proof.
  intros Hno. unfold websocket_endpoint, mbind at 1, Task_bind at 1.
  unfold connect, accept, mbind, Task_bind. by rewrite Hno.
Qed.

Lemma extends_run net actions w : extends w (run_actions net actions w).
Proof.
  revert w. induction actions as [|a rest IH]; intros w;
    [apply extends_refl|].
  unfold run_actions. cbn [foldl].
  eapply extends_trans; [apply extends_perform | apply IH].
Qed.

Lemma ends_loop_first_raise event now :
  ends_loop event ↔ is_Some (first_raise [(event, now)]).
Proof.
  destruct event as [data| |e]; cbn.
  - by destruct (frame_raises data).
  - split; eauto.
  - split; eauto.
Qed.

Lemma first_raise_cons event now later :
  first_raise ((event, now) :: later) =
    match first_raise [(event, now)] with
    | Some e => Some e
    | None => first_raise later
    end.
Proof.
  destruct event as [data| |e]; [|done..]. cbn.
  by destruct (frame_raises data).
Qed.

Lemma loop_actions_cut before event now after c :
  first_raise before = None →
  ends_loop event →
  loop_actions c (before ++ (event, now) :: after)
  = loop_actions c (before ++ [(event, now)])
  ∧ first_raise (before ++ (event, now) :: after)
    = first_raise [(event, now)]
  ∧ first_raise (before ++ [(event, now)]) = first_raise [(event, now)].
Proof.
  intros Hb He. induction before as [|[[data| |e'] now'] later IH];
    [|cbn in Hb..]; [| |done|done].
  - apply (ends_loop_first_raise event now) in He as [e He].
    rewrite !app_nil_l. rewrite (first_raise_cons event now after), He.
    split; [|done]. destruct event as [data| |e0]; [|done..].
    cbn in He. cbn. by destruct (frame_raises data).
  - destruct (frame_raises data) eqn:Hd; [done|].
    destruct (IH Hb) as (E1 & E2 & E3). cbn. rewrite Hd. by rewrite E1, E2, E3.
Qed.

Lemma first_raise_exists inbound :
  is_Some (first_raise inbound) ↔ Exists (λ e, ends_loop e.1) inbound.
Proof.
  induction inbound as [|[event now] later IH].
  - cbn. rewrite Exists_nil. split; [by intros [? ?]|done].
  - rewrite Exists_cons, <- IH, first_raise_cons. cbn [fst].
    rewrite (ends_loop_first_raise event now).
    destruct (first_raise [(event, now)]); [|split; [tauto|]].
    + split; eauto.
    + by intros [[? ?]|?].
Qed.

(** X22: how a run of the endpoint ends.  If the handshake fails the
    exception leaves the handler and nothing has changed: no connection,
    no frame.  If it succeeds the handler never raises; it is closed
    exactly when some event ends the receive loop: a receive that raises,
    a frame that is not a JSON object, or a subscribe or unsubscribe
    frame whose ["types"] cannot be iterated to the end.  The events that
    arrive after the first such event are never handled: the run is the
    same as if they had not been there. *)
Theorem endpoint_outcome net ws c t1 t2 t3 inbound w :
  (accept_ok net ws = false →
   websocket_endpoint net ws c t1 t2 t3 inbound w = (Raised AcceptFailed, w))
  ∧ (accept_ok net ws = true →
     ((websocket_endpoint net ws c t1 t2 t3 inbound w).1 = Returned Closed
      ↔ Exists (λ e, ends_loop e.1) inbound)
     ∧ ((websocket_endpoint net ws c t1 t2 t3 inbound w).1 = Returned Serving
        ↔ ¬ Exists (λ e, ends_loop e.1) inbound)
     ∧ ∀ before event now after,
         inbound = before ++ (event, now) :: after →
         ¬ Exists (λ e, ends_loop e.1) before →
         ends_loop event →
         websocket_endpoint net ws c t1 t2 t3 inbound w
         = websocket_endpoint net ws c t1 t2 t3 (before ++ [(event, now)]) w)
  ∧ (∀ event,
       ends_loop event
       ↔ (∃ e, event = ReceiveRaises e)
         ∨ event = ReceivedOther
         ∨ ∃ data topics,
             event = Received data
             ∧ (action data = Some "subscribe"
                ∨ action data = Some "unsubscribe")
             ∧ types data = Some (RaisesAfter topics)).
Proof.
  split; [apply websocket_endpoint_refused|]. split.
  - intros Hok. rewrite <- first_raise_exists. split; [|split].
    + rewrite websocket_endpoint_actions by done. cbn [fst].
      destruct (first_raise inbound) as [e|].
      * split; [eauto | done].
      * split; [done | by intros [? ?]].
    + rewrite websocket_endpoint_actions by done. cbn [fst].
      destruct (first_raise inbound) as [e|].
      * split; [done | intros H; exfalso; apply H; eauto].
      * split; [by intros _ [? ?] | done].
    + intros before event now after -> Hb He.
      rewrite <- first_raise_exists in Hb.
      assert (first_raise before = None) as Hb'.
      { destruct (first_raise before); [exfalso; eauto | done]. }
      rewrite !websocket_endpoint_actions by done. unfold endpoint_actions.
      destruct (loop_actions_cut before event now after c Hb' He)
        as (-> & -> & ->). done.
  - intros event. destruct event as [data| |e]; cbn.
    + unfold frame_raises. split.
      * case_decide as Ha; [|by intros [? ?]].
        destruct (types data) as [[ts|ts]|] eqn:Ht; try (by intros [? ?]).
        intros _. right. right. by exists data, ts.
      * intros [[e [=]] | [[=] | (d & ts & [= <-] & Ha & Ht)]].
        rewrite decide_True by done. rewrite Ht. eauto.
    + split; [intros _; right; by left | done].
    + split; [intros _; left; eauto | done].
Qed.

(** X23: the greeting comes first.  After a successful handshake, if the
    send of the greeting goes through, the first frame the run appends
    is the [connection] message for the new client, carrying its id and
    the status ["connected"]. *)
Theorem endpoint_greets_first net ws c t1 t2 t3 inbound w :
  accept_ok net ws = true →
  send_ok net ws (greeting c t3) = true →
  ∃ rest,
    outbox (websocket_endpoint net ws c t1 t2 t3 inbound w).2
    = outbox w ++ frame_for c ws (greeting c t3) :: rest
    ∧ msg_type (greeting c t3) = "connection"
    ∧ msg_data (greeting c t3) = ConnectionData c "connected".
Proof.
  intros Hok Hsend. rewrite websocket_endpoint_actions by done.
  unfold endpoint_actions. rewrite run_actions_app. cbn [snd].
  set (w2 := run_actions net
               [Registry (Register ws c t1 t2); SendTo (greeting c t3) c] w).
  assert (outbox w2 = outbox w ++ [frame_for c ws (greeting c t3)]) as Ho.
  { unfold w2, run_actions. cbn [foldl perform].
    rewrite step_register, Hok, send_personal_message_spec. cbn.
    by rewrite lookup_insert_eq, Hsend. }
  destruct (extends_run net
              (loop_actions c inbound ++
               match first_raise inbound with
               | Some _ => [Registry (Unregister c)]
               | None => []
               end) w2) as [_ [rest Hrest]].
  exists rest. rewrite Hrest, Ho, <- app_assoc. done.
Qed.

(** ** What the endpoint does to other clients *)

Lemma same_for_refl c w : same_for c w w.
Proof. by repeat split. Qed.

Lemma same_for_trans c w1 w2 w3 :
  same_for c w1 w2 → same_for c w2 w3 → same_for c w1 w3.
Proof.
  intros (Ha & Hb & Hc & Hd) (Ha' & Hb' & Hc' & Hd').
  split; [by rewrite Ha'|]. split; [by rewrite Hb'|].
  split; [by rewrite Hc'|]. intros t. by rewrite Hd'.
Qed.

Lemma subscribed_disconnect_other c c' t self :
  c' ≠ c → subscribed c' t (disconnect c self) ↔ subscribed c' t self.
Proof.
  intros Hne. unfold subscribed, disconnect.
  destruct (active_connections self !! c); [|done].
  cbn. rewrite lookup_fmap.
  destruct (subscriptions self !! t) as [b|]; [|done]. cbn.
  rewrite elem_of_difference, elem_of_singleton. tauto.
Qed.

Lemma same_for_disconnect c c' w :
  c' ≠ c →
  same_for c' w {| manager := disconnect c (manager w); outbox := outbox w |}.
Proof.
  intros Hne. split; [done|]. cbn. split; [|split].
  - rewrite disconnect_active. by apply lookup_delete_ne.
  - unfold disconnect. destruct (active_connections (manager w) !! c);
      [|done]. cbn. by apply lookup_delete_ne.
  - intros t. by apply subscribed_disconnect_other.
Qed.

Lemma same_for_perform net w a c c' :
  concerns c a = true → c' ≠ c → same_for c' w (perform net w a).
Proof.
  intros Ha Hne.
  destruct a as [[ws x t1 t2|x|x ts|x ts]|message x|message mt];
    cbn in Ha; try done; apply bool_decide_eq_true_1 in Ha; subst x.
  - cbn [perform].
    destruct (step_unchanged_or_registered net w ws c t1 t2)
      as [-> | (Hact & Hs & Hm & Ho)]; [apply same_for_refl|].
    split; [by rewrite Ho|]. split; [|split].
    + rewrite Hact. by apply lookup_insert_ne.
    + rewrite Hm. by apply lookup_insert_ne.
    + intros t. unfold subscribed. by rewrite Hs.
  - by apply same_for_disconnect.
  - split; [done|]. split; [done|]. split; [done|]. intros t.
    change (manager (perform net w (Registry (Subscribe c ts))))
      with (subscribe c ts (manager w)).
    rewrite subscribed_subscribe. tauto.
  - split; [done|]. split; [done|]. split; [done|]. intros t.
    change (manager (perform net w (Registry (Unsubscribe c ts))))
      with (unsubscribe c ts (manager w)).
    rewrite subscribed_unsubscribe. tauto.
  - cbn [perform]. rewrite send_personal_message_spec.
    destruct (active_connections (manager w) !! c) as [ws|];
      [|apply same_for_refl].
    destruct (send_ok net ws message); cbn [snd].
    + split; [|done]. cbn. unfold deliveries_to.
      rewrite filter_app. cbn.
      rewrite decide_False by (cbn; congruence). by rewrite app_nil_r.
    + by apply same_for_disconnect.
Qed.

Lemma same_for_run net actions w c c' :
  forallb (concerns c) actions = true → c' ≠ c →
  same_for c' w (run_actions net actions w).
Proof.
  revert w. induction actions as [|a rest IH]; intros w H Hne;
    [apply same_for_refl|].
  cbn in H. apply andb_true_iff in H as [Ha Hrest].
  unfold run_actions. cbn [foldl].
  eapply same_for_trans; [by apply (same_for_perform net w a c) | by apply IH].
Qed.

(** X24: a session's handler never touches another session.  Whatever
    frames arrive and whatever fails, for every other client id the run
    of the endpoint leaves its connection, its metadata, its place in
    every bucket and the frames sent to it exactly as they were. *)
Theorem endpoint_touches_only_its_client net ws c t1 t2 t3 inbound w c' :
  c' ≠ c →
  deliveries_to c' (outbox (websocket_endpoint net ws c t1 t2 t3 inbound w).2)
  = deliveries_to c' (outbox w)
  ∧ active_connections
      (manager (websocket_endpoint net ws c t1 t2 t3 inbound w).2) !! c'
    = active_connections (manager w) !! c'
  ∧ connection_metadata
      (manager (websocket_endpoint net ws c t1 t2 t3 inbound w).2) !! c'
    = connection_metadata (manager w) !! c'
  ∧ ∀ t, subscribed c' t
           (manager (websocket_endpoint net ws c t1 t2 t3 inbound w).2)
         ↔ subscribed c' t (manager w).
Proof.
  intros Hne. destruct (accept_ok net ws) eqn:Hok.
  - rewrite websocket_endpoint_actions by done. cbn [snd].
    apply (same_for_run net _ w c c'); [apply concerns_endpoint | done].
  - rewrite websocket_endpoint_refused by done. by repeat split.
Qed.

(** ** Leaving the endpoint *)

Lemma loop_keeps_connection net c ws inbound w :
  active_connections (manager w) !! c = Some ws →
  (∀ message, send_ok net ws message = true) →
  active_connections (manager (run_actions net (loop_actions c inbound) w)) !! c
  = Some ws.
Proof.
  intros Hc Hok. revert w Hc.
  induction inbound as [|[[data| |e] now] later IH]; intros w Hc;
    [done| |done..].
  cbn [loop_actions]. rewrite run_actions_app.
  assert (active_connections
            (manager (run_actions net (option_list (frame_action c data now)) w))
            !! c = Some ws) as Hc'.
  { unfold frame_action, run_actions.
    repeat case_decide; try done.
    change (foldl (perform net) w (option_list (Some (SendTo (pong now) c))))
      with (send_personal_message net (pong now) c w).2.
    by rewrite send_personal_message_spec, Hc, Hok. }
  destruct (frame_raises data); [done | by apply IH].
Qed.

(** X25: what is left of a client when its handler closes.  After a
    successful handshake, once the receive loop has ended (a receive that
    raised, a disconnect or any other exception, or a frame whose
    handling raised) the handler is closed and the client is no longer
    registered.  If moreover every send on its socket went through, the
    client is in no bucket and has no metadata left. *)
Theorem endpoint_cleanup net ws c t1 t2 t3 inbound w e :
  accept_ok net ws = true →
  first_raise inbound = Some e →
  (websocket_endpoint net ws c t1 t2 t3 inbound w).1 = Returned Closed
  ∧ ¬ registered c (manager (websocket_endpoint net ws c t1 t2 t3 inbound w).2)
  ∧ ((∀ message, send_ok net ws message = true) →
     (∀ t, ¬ subscribed c t
             (manager (websocket_endpoint net ws c t1 t2 t3 inbound w).2))
     ∧ connection_metadata
         (manager (websocket_endpoint net ws c t1 t2 t3 inbound w).2) !! c
       = None).
Proof.
  intros Hok He. rewrite websocket_endpoint_actions by done.
  unfold endpoint_actions. rewrite He, !run_actions_app. cbn [fst snd].
  set (w2 := run_actions net
               [Registry (Register ws c t1 t2); SendTo (greeting c t3) c] w).
  set (w3 := run_actions net (loop_actions c inbound) w2).
  change (manager (run_actions net [Registry (Unregister c)] w3))
    with (disconnect c (manager w3)).
  split; [done|]. split; [apply disconnect_not_registered|].
  intros Hsend.
  assert (active_connections (manager w2) !! c = Some ws) as H2.
  { unfold w2, run_actions. cbn [foldl perform].
    rewrite step_register, Hok, send_personal_message_spec. cbn.
    rewrite lookup_insert_eq, Hsend. cbn. apply lookup_insert_eq. }
  assert (registered c (manager w3)) as H3.
  { apply elem_of_dom. exists ws. by apply loop_keeps_connection. }
  split.
  - intros t. unfold subscribed.
    destruct (subscriptions (disconnect c (manager w3)) !! t) as [b|] eqn:Hb;
      cbn.
    + eauto using disconnect_purges.
    + apply not_elem_of_empty.
  - rewrite disconnect_registered by done. cbn. apply lookup_delete_eq.
Qed.

(** X26: a subscription can outlive its client.  If the handshake
    succeeds but the greeting cannot be sent, the client is disconnected
    at once while its handler keeps receiving; a subscribe frame handled
    then puts the id into the listed buckets, and the final disconnect,
    finding no connection, does not take it out: the handler ends with
    the id unregistered but still subscribed. *)
Theorem endpoint_leaks_subscription net ws c t1 t2 t3 ts now e now' rest w :
  accept_ok net ws = true →
  send_ok net ws (greeting c t3) = false →
  (websocket_endpoint net ws c t1 t2 t3
     ((Received (control "subscribe" ts), now)
        :: (ReceiveRaises e, now') :: rest) w).1 = Returned Closed
  ∧ ¬ registered c
        (manager (websocket_endpoint net ws c t1 t2 t3
                    ((Received (control "subscribe" ts), now)
                       :: (ReceiveRaises e, now') :: rest) w).2)
  ∧ (∀ t, t ∈ ts →
          subscribed c t
            (manager (websocket_endpoint net ws c t1 t2 t3
                        ((Received (control "subscribe" ts), now)
                           :: (ReceiveRaises e, now') :: rest) w).2))
  ∧ (ts ≠ [] →
     ¬ no_orphans
         (manager (websocket_endpoint net ws c t1 t2 t3
                     ((Received (control "subscribe" ts), now)
                        :: (ReceiveRaises e, now') :: rest) w).2)).
Proof.
  intros Hok Hfail. rewrite websocket_endpoint_actions by done.
  cbn [fst snd first_raise]. split; [done|].
  assert (endpoint_actions ws c t1 t2 t3
            ((Received (control "subscribe" ts), now)
               :: (ReceiveRaises e, now') :: rest)
          = [Registry (Register ws c t1 t2); SendTo (greeting c t3) c;
             Registry (Subscribe c ts); Registry (Unregister c)]) as ->
    by reflexivity.
  unfold run_actions. cbn [foldl].
  change (perform net w (Registry (Register ws c t1 t2)))
    with (step net w (Register ws c t1 t2)).
  rewrite step_register, Hok.
  cbn [perform]. rewrite send_personal_message_spec.
  cbn [manager active_connections outbox].
  rewrite lookup_insert_eq, Hfail.
  cbn [step apply_op call snd manager].
  set (m1 := disconnect c {| active_connections := _ |}).
  assert (¬ registered c m1) as Hgone by apply disconnect_not_registered.
  assert (¬ registered c (subscribe c ts m1)) as Hgone' by done.
  rewrite (disconnect_unregistered c (subscribe c ts m1) Hgone').
  split; [done|].
  assert (∀ t, t ∈ ts → subscribed c t (subscribe c ts m1)) as Hsub.
  { intros t Ht. apply subscribed_subscribe. by right. }
  split; [done|].
  intros Hts. rewrite no_orphans_alt. intros Hno.
  destruct ts as [|t ts']; [done|].
  apply Hgone', (Hno c t), Hsub, list_elem_of_here.
Qed.

(** X27: what the handling of one frame does.  A frame that is not a
    JSON object raises and changes nothing.  For an object, the handling
    raises exactly when the action is subscribe or unsubscribe and the
    value under ["types"] cannot be iterated to the end; the strings met
    before the failure have then been subscribed (or unsubscribed).  A
    frame whose action is missing or is none of ["subscribe"],
    ["unsubscribe"], ["ping"] changes nothing whatever its ["types"], and
    neither does a subscribe or unsubscribe frame without a ["types"]
    key; a ping from a registered client whose send goes through appends
    exactly the pong and leaves the manager alone. *)
Theorem handle_frame_edge_cases net c data now w :
  handle_frame net c JsonOther now w = (Raised AttributeError, w)
  ∧ ((handle_frame net c (JsonObject data) now w).1 = Returned ()
     ∨ (handle_frame net c (JsonObject data) now w).1 = Raised TypeError)
  ∧ ((handle_frame net c (JsonObject data) now w).1 = Raised TypeError
     ↔ (action data = Some "subscribe" ∨ action data = Some "unsubscribe")
       ∧ ∃ topics, types data = Some (RaisesAfter topics))
  ∧ (∀ topics,
       types data = Some (RaisesAfter topics) →
       (action data = Some "subscribe" →
        handle_frame net c (JsonObject data) now w =
          (Raised TypeError,
           {| manager := subscribe c topics (manager w);
              outbox := outbox w |}))
       ∧ (action data = Some "unsubscribe" →
          handle_frame net c (JsonObject data) now w =
            (Raised TypeError,
             {| manager := unsubscribe c topics (manager w);
                outbox := outbox w |})))
  ∧ (action data ≠ Some "subscribe" →
     action data ≠ Some "unsubscribe" →
     action data ≠ Some "ping" →
     handle_frame net c (JsonObject data) now w = (Returned (), w))
  ∧ (types data = None →
     action data = Some "subscribe" ∨ action data = Some "unsubscribe" →
     handle_frame net c (JsonObject data) now w = (Returned (), w))
  ∧ (∀ ws, action data = Some "ping" →
           active_connections (manager w) !! c = Some ws →
           send_ok net ws (pong now) = true →
           handle_frame net c (JsonObject data) now w =
             (Returned (),
              {| manager := manager w;
                 outbox := outbox w ++ [frame_for c ws (pong now)] |})).
Proof.
  split; [done|]. split; [|split; [|split; [|split; [|split]]]].
  - rewrite handle_frame_action. cbn [fst]. unfold frame_raises.
    case_decide; [|by left].
    destruct (types data) as [[ts|ts]|]; [by left | by right | by left].
  - rewrite handle_frame_action. cbn [fst]. unfold frame_raises. split.
    + case_decide as Ha; [|done].
      destruct (types data) as [[ts|ts]|]; try done. eauto.
    + intros [Ha [ts Ht]]. rewrite decide_True by done. by rewrite Ht.
  - intros topics Ht. split; intros Ha; unfold handle_frame; rewrite Ha, Ht.
    + by rewrite decide_True.
    + rewrite decide_False by done. by rewrite decide_True.
  - intros H1 H2 H3. unfold handle_frame. by rewrite !decide_False.
  - intros Ht Ha. unfold handle_frame. rewrite Ht.
    destruct w as [[a s m] o].
    destruct Ha as [Ha | Ha]; rewrite Ha.
    + by rewrite decide_True.
    + rewrite decide_False by done. by rewrite decide_True.
  - intros ws Ha Hc Hok. unfold handle_frame. rewrite Ha.
    rewrite !decide_False by done. rewrite decide_True by done.
    fold (pong now). by rewrite send_personal_message_spec, Hc, Hok.
Qed.

(** * The further properties at concrete inputs *)

Lemma reliable_never_raises self message c :
  ¬ send_raises reliable self message c.
Proof. by intros (ws & _ & Hf). Qed.

Lemma new_manager_unsubscribed c t : ¬ subscribed c t new_manager.
Proof. unfold subscribed. cbn. rewrite lookup_empty. apply not_elem_of_empty. Qed.

(** [subscription_calls_commute] for the clients ["a"] and ["b"]. *)
Lemma subscription_calls_commute_witness :
  "a" ≠ "b"
  ∧ subscribe "a" ["alert"] (subscribe "b" ["alert"; "order_placed"] new_manager)
    = subscribe "b" ["alert"; "order_placed"] (subscribe "a" ["alert"] new_manager).
Proof.
  assert ("a" ≠ "b") as H by discriminate.
  exact (conj H
    (proj1 (subscription_calls_commute "a" ["alert"] "b"
              ["alert"; "order_placed"] new_manager H))).
Defined.

(** [subscribe_then_broadcast_delivers_once] for client ["a"] of [lobby]. *)
Lemma subscribe_then_broadcast_delivers_once_witness :
  active_connections (manager lobby) !! "a" = Some (Socket 1)
  ∧ deliveries_to "a"
      (outbox (broadcast reliable test_alert (Some "alert")
                 (step reliable lobby (Subscribe "a" ["alert"]))).2)
    = deliveries_to "a" (outbox lobby)
      ++ [frame_for "a" (Socket 1) test_alert].
Proof.
  assert ("alert" ∈ ["alert"]) as H1 by apply list_elem_of_here.
  assert ("alert" ≠ "") as H2 by discriminate.
  assert (active_connections (manager lobby) !! "a" = Some (Socket 1)) as H3
    by (vm_compute; reflexivity).
  exact (conj H3
    (subscribe_then_broadcast_delivers_once reliable lobby "a" (Socket 1)
       ["alert"] "alert" test_alert H1 H2 H3 eq_refl)).
Defined.

(** [unsubscribe_then_broadcast_skips] for client ["a"] of [lobby], where
    ["alert"] has no bucket yet. *)
Lemma unsubscribe_then_broadcast_skips_witness :
  subscriptions (manager lobby) !! "alert" = None
  ∧ broadcast reliable test_alert (Some "alert")
      (step reliable lobby (Unsubscribe "a" ["alert"]))
    = (Returned (), step reliable lobby (Unsubscribe "a" ["alert"])).
Proof.
  assert ("alert" ∈ ["alert"]) as H1 by apply list_elem_of_here.
  assert ("alert" ≠ "") as H2 by discriminate.
  assert (subscriptions (manager lobby) !! "alert" = None) as H3
    by (vm_compute; reflexivity).
  exact (conj H3
    (proj2 (unsubscribe_then_broadcast_skips reliable lobby "a" ["alert"]
              "alert" test_alert H1 H2) H3)).
Defined.

(** [broadcast_to_everyone] without a message type, for client ["b"]. *)
Lemma broadcast_to_everyone_witness :
  active_connections (manager both_on_alert) !! "b" = Some (Socket 2)
  ∧ deliveries_to "b"
      (outbox (broadcast reliable test_alert None both_on_alert).2)
    = deliveries_to "b" (outbox both_on_alert)
      ++ [frame_for "b" (Socket 2) test_alert].
Proof.
  assert (active_connections (manager both_on_alert) !! "b" = Some (Socket 2))
    as H by (vm_compute; reflexivity).
  exact (conj H
    (proj1 (broadcast_to_everyone reliable both_on_alert test_alert None
              (or_introl eq_refl)) "b" (Socket 2) H eq_refl)).
Defined.

(** [broadcast_without_failures] on a network where no send raises. *)
Lemma broadcast_without_failures_witness :
  manager (broadcast reliable test_alert (Some "alert") both_on_alert).2
  = manager both_on_alert.
Proof.
  exact (broadcast_without_failures reliable both_on_alert test_alert
           (Some "alert")
           (λ c _, reliable_never_raises (manager both_on_alert) test_alert c)).
Defined.

(** [send_personal_message_outcomes] with the socket of ["a"] broken. *)
Lemma send_personal_message_outcomes_witness :
  active_connections (manager lobby) !! "a" = Some (Socket 1)
  ∧ send_ok (broken_at (Socket 1)) (Socket 1) test_alert = false
  ∧ manager (send_personal_message (broken_at (Socket 1)) test_alert "a"
               lobby).2
    = disconnect "a" (manager lobby).
Proof.
  assert (active_connections (manager lobby) !! "a" = Some (Socket 1)) as H
    by (vm_compute; reflexivity).
  exact (conj H (conj eq_refl
    (proj1 (proj2 (proj2 (proj2
       (send_personal_message_outcomes (broken_at (Socket 1)) lobby
          test_alert "a" (Socket 1) H)) eq_refl))))).
Defined.

(** [no_orphans_along_actions] where a broadcast evicts the subscriber. *)
Lemma no_orphans_along_actions_witness :
  subscribes_guarded (broken_at (Socket 1))
    [Registry (Register (Socket 1) "a" 0 0);
     Registry (Subscribe "a" ["alert"]);
     Broadcast test_alert (Some "alert")] new_world = true
  ∧ no_orphans
      (manager (run_actions (broken_at (Socket 1))
                  (take 3 [Registry (Register (Socket 1) "a" 0 0);
                           Registry (Subscribe "a" ["alert"]);
                           Broadcast test_alert (Some "alert")])
                  new_world)).
Proof.
  assert (no_orphans (manager new_world)) as H0 by apply map_Forall_empty.
  assert (subscribes_guarded (broken_at (Socket 1))
            [Registry (Register (Socket 1) "a" 0 0);
             Registry (Subscribe "a" ["alert"]);
             Broadcast test_alert (Some "alert")] new_world = true) as H1
    by (vm_compute; reflexivity).
  exact (conj H1
    (no_orphans_along_actions (broken_at (Socket 1)) _ new_world 3 H0 H1)).
Defined.

(** [metadata_follows_connections] from the empty manager. *)
Lemma metadata_follows_connections_witness :
  metadata_consistent (manager new_world)
  ∧ metadata_consistent
      (manager (run_actions (broken_at (Socket 1))
                  [Registry (Register (Socket 1) "a" 0 0);
                   SendTo test_alert "a"; Registry (Unregister "a")]
                  new_world)).
Proof.
  assert (metadata_consistent (manager new_world)) as H0 by reflexivity.
  exact (conj H0
    (metadata_follows_connections (broken_at (Socket 1)) _ new_world H0)).
Defined.

(** [sending_only_evicts] for a broadcast followed by a personal message. *)
Lemma sending_only_evicts_witness :
  dom (subscriptions
         (manager (run_actions (broken_at (Socket 1))
                     [Broadcast test_alert None; SendTo test_alert "a"]
                     both_on_alert)))
  = dom (subscriptions (manager both_on_alert)).
Proof.
  exact (proj2 (proj2
    (sending_only_evicts (broken_at (Socket 1))
       [Broadcast test_alert None; SendTo test_alert "a"] both_on_alert
       eq_refl))).
Defined.

(** [pump_stops_after_failed_send] with the socket of ["a"] broken. *)
Lemma pump_stops_after_failed_send_witness :
  active_connections (manager lobby) !! "a" = Some (Socket 1)
  ∧ send_metrics_updates (broken_at (Socket 1))
      [good_tick 1; good_tick 2; good_tick 3] "a" lobby
    = (Returned Stopped,
       {| manager := disconnect "a" (manager lobby); outbox := outbox lobby |}).
Proof.
  assert (active_connections (manager lobby) !! "a" = Some (Socket 1)) as H
    by (vm_compute; reflexivity).
  exact (conj H
    (proj1 (pump_stops_after_failed_send (broken_at (Socket 1)) lobby "a"
              (Socket 1) (good_tick 1) (good_tick 2) [good_tick 3] H eq_refl))).
Defined.

(** [connect_then_disconnect_restores] from the empty manager. *)
Lemma connect_then_disconnect_restores_witness :
  ¬ registered "a" (manager new_world)
  ∧ disconnect "a" (manager (connect reliable (Socket 1) "a" 0 0 new_world).2)
    = manager new_world.
Proof.
  assert (¬ registered "a" (manager new_world)) as H1.
  { unfold registered. cbn. rewrite dom_empty_L. apply not_elem_of_empty. }
  exact (conj H1
    (proj1 (proj2 (proj2
       (connect_then_disconnect_restores reliable new_world (Socket 1) "a" 0 0
          eq_refl H1 (lookup_empty _) (new_manager_unsubscribed "a")))))).
Defined.

(** [endpoint_greets_first] for a new client that sends nothing. *)
Lemma endpoint_greets_first_witness :
  ∃ rest,
    outbox (websocket_endpoint reliable (Socket 1) "a" 0 0 1 [] new_world).2
    = outbox new_world ++ frame_for "a" (Socket 1) (greeting "a" 1) :: rest
    ∧ msg_type (greeting "a" 1) = "connection"
    ∧ msg_data (greeting "a" 1) = ConnectionData "a" "connected".
Proof.
  exact (endpoint_greets_first reliable (Socket 1) "a" 0 0 1 [] new_world
           eq_refl eq_refl).
Defined.

(** [endpoint_touches_only_its_client]: a session of ["c"] as seen by
    ["b"]. *)
Lemma endpoint_touches_only_its_client_witness :
  "b" ≠ "c"
  ∧ deliveries_to "b"
      (outbox (websocket_endpoint reliable (Socket 3) "c" 0 0 1
                 [(Received (control "subscribe" ["alert"]), 2%Z);
                  (Received (control "ping" []), 3%Z);
                  (ReceiveRaises WebSocketDisconnect, 4%Z)] both_on_alert).2)
    = deliveries_to "b" (outbox both_on_alert).
Proof.
  assert ("b" ≠ "c") as H by discriminate.
  exact (conj H
    (proj1 (endpoint_touches_only_its_client reliable (Socket 3) "c" 0 0 1
              [(Received (control "subscribe" ["alert"]), 2%Z);
               (Received (control "ping" []), 3%Z);
               (ReceiveRaises WebSocketDisconnect, 4%Z)] both_on_alert "b" H))).
Defined.

(** [endpoint_cleanup] for a client that subscribes and then goes away. *)
Lemma endpoint_cleanup_witness :
  first_raise [(Received (control "subscribe" ["alert"]), 2%Z);
               (ReceiveRaises WebSocketDisconnect, 3%Z)]
  = Some WebSocketDisconnect
  ∧ ¬ registered "c"
        (manager (websocket_endpoint reliable (Socket 3) "c" 0 0 1
                    [(Received (control "subscribe" ["alert"]), 2%Z);
                     (ReceiveRaises WebSocketDisconnect, 3%Z)] lobby).2)
  ∧ ∀ t, ¬ subscribed "c" t
             (manager (websocket_endpoint reliable (Socket 3) "c" 0 0 1
                         [(Received (control "subscribe" ["alert"]), 2%Z);
                          (ReceiveRaises WebSocketDisconnect, 3%Z)] lobby).2).
Proof.
  pose proof (endpoint_cleanup reliable (Socket 3) "c" 0 0 1
                [(Received (control "subscribe" ["alert"]), 2%Z);
                 (ReceiveRaises WebSocketDisconnect, 3%Z)] lobby
                WebSocketDisconnect eq_refl eq_refl) as (_ & Hgone & Hclean).
  exact (conj eq_refl (conj Hgone (proj1 (Hclean (λ _, eq_refl))))).
Defined.

(** [endpoint_leaks_subscription] with the socket of the new client
    broken from the start. *)
Lemma endpoint_leaks_subscription_witness :
  send_ok (broken_at (Socket 3)) (Socket 3) (greeting "c" 1) = false
  ∧ ¬ no_orphans
        (manager (websocket_endpoint (broken_at (Socket 3)) (Socket 3) "c"
                    0 0 1
                    [(Received (control "subscribe" ["alert"]), 2%Z);
                     (ReceiveRaises WebSocketDisconnect, 3%Z)] lobby).2).
Proof.
  assert (["alert"] ≠ []) as H by discriminate.
  exact (conj eq_refl
    (proj2 (proj2 (proj2
       (endpoint_leaks_subscription (broken_at (Socket 3)) (Socket 3) "c"
          0 0 1 ["alert"] 2 WebSocketDisconnect 3 [] lobby eq_refl eq_refl)))
       H)).
Defined.
